(** * OneButtonTiny: debounce filter and click / long-press state machine

    A shallow embedding of [src/OneButtonTiny.h] and [src/OneButtonTiny.cpp].
    Fixed-width unsigned integers are integers of [Z] with their wrap-around
    written out; the packed [_flags] byte is kept packed and manipulated with
    [Z.land], [Z.lor], [Z.lnot], [Z.shiftl] and [Z.shiftr] exactly as the
    inline helpers of the header do.  The hardware collaborators ([millis()],
    [digitalRead()]) are inputs of the functions that consult them, and a
    call of a user callback is recorded in an event log. *)

From Stdlib Require Import ZArith List Bool Lia.
Import ListNotations.
Local Open Scope Z_scope.

(** ** Fixed-width arithmetic *)

Definition uint8 (z : Z) : Z := z mod 256.
Definition uint16 (z : Z) : Z := z mod 65536.
Definition uint32 (z : Z) : Z := z mod 4294967296.

(** Conversion of an integer to [bool], as C++ does it. *)
Definition to_bool (z : Z) : bool := negb (z =? 0).

(** ** Callbacks and the event log *)

(** The type [callbackFunction] of the header, a pointer to a function
    without arguments or result: either [nullptr] or the address of a
    handler. *)
Definition callbackFunction := option nat.
Definition nullptr : callbackFunction := None.

(** What a tick does to the outside world: which attachment slot was
    called, and the handler found there. *)
Inductive event : Type :=
| EvClick (f : nat)
| EvDoubleClick (f : nat)
| EvLongPressStart (f : nat).

Definition is_click (e : event) : bool :=
  match e with EvClick _ => true | _ => false end.
Definition is_double_click (e : event) : bool :=
  match e with EvDoubleClick _ => true | _ => false end.
Definition is_long_press_start (e : event) : bool :=
  match e with EvLongPressStart _ => true | _ => false end.

(** [if (f) f();] *)
Definition call (k : nat -> event) (f : callbackFunction) : list event :=
  match f with
  | Some h => [k h]
  | None => []
  end.

(** ** The class *)

(** [enum stateMachine_t : uint8_t] *)
Definition stateMachine_t := Z.
Definition OCS_INIT : stateMachine_t := 0.
Definition OCS_DOWN : stateMachine_t := 1.
Definition OCS_UP : stateMachine_t := 2.
Definition OCS_COUNT : stateMachine_t := 3.
Definition OCS_PRESS : stateMachine_t := 4.
Definition OCS_PRESSEND : stateMachine_t := 5.

Definition FLAG_BUTTON_PRESSED : Z := 0x80.
Definition FLAG_LAST_LEVEL : Z := 0x40.
Definition FLAG_DEBOUNCED : Z := 0x20.
Definition STATE_MASK : Z := 0x1C.
Definition STATE_SHIFT : Z := 2.
Definition CLICKS_MASK : Z := 0x03.

Record OneButtonTiny : Type := mkOneButtonTiny {
  _click_ms : Z;                      (* uint16_t, 400 *)
  _press_ms : Z;                      (* uint16_t, 800 *)
  _startTime : Z;                     (* uint16_t, millis() >> 2 *)
  _lastDebounceTime : Z;              (* uint16_t, millis() >> 2 *)
  _clickFunc : callbackFunction;
  _doubleClickFunc : callbackFunction;
  _longPressStartFunc : callbackFunction;
  _pin : Z;                           (* uint8_t *)
  _debounce_ms : Z;                   (* uint8_t, 50 *)
  _flags : Z;                         (* uint8_t, packed *)
  _state : stateMachine_t             (* legacy copy of the packed state *)
}.

Definition with_flags (b : OneButtonTiny) (f : Z) : OneButtonTiny :=
  mkOneButtonTiny (_click_ms b) (_press_ms b) (_startTime b)
    (_lastDebounceTime b) (_clickFunc b) (_doubleClickFunc b)
    (_longPressStartFunc b) (_pin b) (_debounce_ms b) f (_state b).

Definition with_startTime (b : OneButtonTiny) (t : Z) : OneButtonTiny :=
  mkOneButtonTiny (_click_ms b) (_press_ms b) t
    (_lastDebounceTime b) (_clickFunc b) (_doubleClickFunc b)
    (_longPressStartFunc b) (_pin b) (_debounce_ms b) (_flags b) (_state b).

Definition with_lastDebounceTime (b : OneButtonTiny) (t : Z) : OneButtonTiny :=
  mkOneButtonTiny (_click_ms b) (_press_ms b) (_startTime b)
    t (_clickFunc b) (_doubleClickFunc b)
    (_longPressStartFunc b) (_pin b) (_debounce_ms b) (_flags b) (_state b).

Definition with_state (b : OneButtonTiny) (s : stateMachine_t) : OneButtonTiny :=
  mkOneButtonTiny (_click_ms b) (_press_ms b) (_startTime b)
    (_lastDebounceTime b) (_clickFunc b) (_doubleClickFunc b)
    (_longPressStartFunc b) (_pin b) (_debounce_ms b) (_flags b) s.

(** *** Inline helpers for the packed flags *)

Definition _setState (b : OneButtonTiny) (s : stateMachine_t) : OneButtonTiny :=
  with_flags b
    (uint8 (Z.lor (Z.land (_flags b) (Z.lnot STATE_MASK))
                  (Z.land (Z.shiftl s STATE_SHIFT) STATE_MASK))).

Definition _getState (b : OneButtonTiny) : stateMachine_t :=
  Z.shiftr (Z.land (_flags b) STATE_MASK) STATE_SHIFT.

(** The parameter of [_setClicks] is a [uint8_t]. *)
Definition _setClicks (b : OneButtonTiny) (c : Z) : OneButtonTiny :=
  with_flags b
    (uint8 (Z.lor (Z.land (_flags b) (Z.lnot CLICKS_MASK))
                  (Z.land (uint8 c) CLICKS_MASK))).

Definition _getClicks (b : OneButtonTiny) : Z :=
  Z.land (_flags b) CLICKS_MASK.

Definition _getButtonPressed (b : OneButtonTiny) : bool :=
  to_bool (Z.land (_flags b) FLAG_BUTTON_PRESSED).

Definition _getLastLevel (b : OneButtonTiny) : bool :=
  to_bool (Z.land (_flags b) FLAG_LAST_LEVEL).

Definition _setLastLevel (b : OneButtonTiny) (v : bool) : OneButtonTiny :=
  if v then with_flags b (uint8 (Z.lor (_flags b) FLAG_LAST_LEVEL))
  else with_flags b (uint8 (Z.land (_flags b) (Z.lnot FLAG_LAST_LEVEL))).

Definition _getDebouncedLevel (b : OneButtonTiny) : bool :=
  to_bool (Z.land (_flags b) FLAG_DEBOUNCED).

Definition _setDebouncedLevel (b : OneButtonTiny) (v : bool) : OneButtonTiny :=
  if v then with_flags b (uint8 (Z.lor (_flags b) FLAG_DEBOUNCED))
  else with_flags b (uint8 (Z.land (_flags b) (Z.lnot FLAG_DEBOUNCED))).

(** *** Time helpers

    [millis] is the value read from the platform's [millis()], an
    [unsigned long] of 32 bits. *)
Definition _now (millis : Z) : Z := uint16 (Z.shiftr millis 2).

(** [(now - start) << 2] stored in a [uint16_t]: the expression of
    [_elapsed] and of [waitTime] in [_fsm]. *)
Definition _elapsed (now start : Z) : Z := uint16 (Z.shiftl (now - start) 2).

(** *** Constructor, setters, attachment *)

(** Member initialisers of the header, then the constructor's
    [_pin(pin), _flags(0), _state(OCS_INIT)] and polarity bit.  [pinMode]
    only touches the hardware. *)
Definition OneButtonTiny_new (pin : Z) (activeLow pullupActive : bool)
  : OneButtonTiny :=
  let b := mkOneButtonTiny 400 800 0 0 nullptr nullptr nullptr
             (uint8 pin) 50 0 OCS_INIT in
  if activeLow then b
  else with_flags b (uint8 (Z.lor (_flags b) FLAG_BUTTON_PRESSED)).

Definition setDebounceMs (b : OneButtonTiny) (ms : Z) : OneButtonTiny :=
  mkOneButtonTiny (_click_ms b) (_press_ms b) (_startTime b)
    (_lastDebounceTime b) (_clickFunc b) (_doubleClickFunc b)
    (_longPressStartFunc b) (_pin b) (uint8 ms) (_flags b) (_state b).

Definition setClickMs (b : OneButtonTiny) (ms : Z) : OneButtonTiny :=
  mkOneButtonTiny (uint16 ms) (_press_ms b) (_startTime b)
    (_lastDebounceTime b) (_clickFunc b) (_doubleClickFunc b)
    (_longPressStartFunc b) (_pin b) (_debounce_ms b) (_flags b) (_state b).

Definition setPressMs (b : OneButtonTiny) (ms : Z) : OneButtonTiny :=
  mkOneButtonTiny (_click_ms b) (uint16 ms) (_startTime b)
    (_lastDebounceTime b) (_clickFunc b) (_doubleClickFunc b)
    (_longPressStartFunc b) (_pin b) (_debounce_ms b) (_flags b) (_state b).

Definition attachClick (b : OneButtonTiny) (f : callbackFunction) : OneButtonTiny :=
  mkOneButtonTiny (_click_ms b) (_press_ms b) (_startTime b)
    (_lastDebounceTime b) f (_doubleClickFunc b)
    (_longPressStartFunc b) (_pin b) (_debounce_ms b) (_flags b) (_state b).

Definition attachDoubleClick (b : OneButtonTiny) (f : callbackFunction) : OneButtonTiny :=
  mkOneButtonTiny (_click_ms b) (_press_ms b) (_startTime b)
    (_lastDebounceTime b) (_clickFunc b) f
    (_longPressStartFunc b) (_pin b) (_debounce_ms b) (_flags b) (_state b).

Definition attachLongPressStart (b : OneButtonTiny) (f : callbackFunction) : OneButtonTiny :=
  mkOneButtonTiny (_click_ms b) (_press_ms b) (_startTime b)
    (_lastDebounceTime b) (_clickFunc b) (_doubleClickFunc b)
    f (_pin b) (_debounce_ms b) (_flags b) (_state b).

Definition isIdle (b : OneButtonTiny) : bool := _state b =? OCS_INIT.

(** [state()] of the public interface. *)
Definition state (b : OneButtonTiny) : stateMachine_t := _getState b.

(** *** State machine *)

Definition reset (b : OneButtonTiny) : OneButtonTiny :=
  let b := _setState b OCS_INIT in
  let b := _setClicks b 0 in
  let b := with_startTime b 0 in
  with_state b OCS_INIT.

(** [_debounce(level)]; [millis] is what [millis()] returns inside [_now()].
    The result pairs the object after the call with the returned level. *)
Definition _debounce (b : OneButtonTiny) (level : bool) (millis : Z)
  : OneButtonTiny * bool :=
  let now := _now millis in
  let b :=
    if Bool.eqb (_getLastLevel b) level then
      if uint16 (now - _lastDebounceTime b) >=? uint8 (Z.shiftr (_debounce_ms b) 2)
      then _setDebouncedLevel b level
      else b
    else
      _setLastLevel (with_lastDebounceTime b now) level in
  (b, _getDebouncedLevel b).

(** [_fsm(activeLevel)]; the result pairs the object after the call with
    the callbacks that were called, in order. *)
Definition _fsm (b : OneButtonTiny) (activeLevel : bool) (millis : Z)
  : OneButtonTiny * list event :=
  let now := _now millis in
  let waitTime := uint16 (Z.shiftl (now - _startTime b) 2) in
  let currentState := _getState b in
  let '(b, ev) :=
    if currentState =? OCS_INIT then
      if activeLevel then
        (_setClicks (with_startTime (_setState b OCS_DOWN) now) 0, [])
      else (b, [])
    else if currentState =? OCS_DOWN then
      if negb activeLevel then
        (with_startTime (_setState b OCS_UP) now, [])
      else if waitTime >? _press_ms b then
        (_setState b OCS_PRESS, call EvLongPressStart (_longPressStartFunc b))
      else (b, [])
    else if currentState =? OCS_UP then
      (_setState (_setClicks b (_getClicks b + 1)) OCS_COUNT, [])
    else if currentState =? OCS_COUNT then
      if activeLevel then
        (with_startTime (_setState b OCS_DOWN) now, [])
      else if (waitTime >=? _click_ms b) || (_getClicks b >=? 2) then
        let clicks := _getClicks b in
        let ev :=
          match Z.eqb clicks 1, _clickFunc b with
          | true, Some f => [EvClick f]
          | _, _ =>
              match clicks >=? 2, _doubleClickFunc b with
              | true, Some f => [EvDoubleClick f]
              | _, _ => []
              end
          end in
        (reset b, ev)
      else (b, [])
    else if currentState =? OCS_PRESS then
      if negb activeLevel then
        (with_startTime (_setState b OCS_PRESSEND) now, [])
      else (b, [])
    else if currentState =? OCS_PRESSEND then
      (reset b, [])
    else
      (reset b, []) in
  (with_state b (_getState b), ev).

(** [tick(bool activeLevel)]: [_debounce] and [_fsm] each read the clock. *)
Definition tick_level (b : OneButtonTiny) (activeLevel : bool)
  (millis_debounce millis_fsm : Z) : OneButtonTiny * list event :=
  let '(b, stable) := _debounce b activeLevel millis_debounce in
  _fsm b stable millis_fsm.

(** [tick(void)]: [rawLevel] is what [digitalRead(_pin)] returns. *)
Definition tick (b : OneButtonTiny) (rawLevel : bool)
  (millis_debounce millis_fsm : Z) : OneButtonTiny * list event :=
  let activeLevel := if _getButtonPressed b then rawLevel else negb rawLevel in
  tick_level b activeLevel millis_debounce millis_fsm.

(** ** Running a button over a trace of ticks *)

(** One call of [tick(bool)]: the level handed in and the two clock
    readings taken during the call. *)
Record sample : Type := mkSample {
  s_level : bool;
  s_millis_debounce : Z;
  s_millis_fsm : Z
}.

(** A call whose two clock readings coincide. *)
Definition at_ms (millis : Z) (level : bool) : sample :=
  mkSample level millis millis.

Definition tick_sample (b : OneButtonTiny) (s : sample)
  : OneButtonTiny * list event :=
  tick_level b (s_level s) (s_millis_debounce s) (s_millis_fsm s).

(** Successive [tick(bool)] calls; the log collects the callbacks in the
    order of their invocation. *)
Fixpoint run_ticks (b : OneButtonTiny) (tr : list sample)
  : OneButtonTiny * list event :=
  match tr with
  | [] => (b, [])
  | s :: tr =>
      let '(b1, ev1) := tick_sample b s in
      let '(b2, ev2) := run_ticks b1 tr in
      (b2, ev1 ++ ev2)
  end.

(** The callbacks of each tick of a trace, tick by tick. *)
Fixpoint tick_log (b : OneButtonTiny) (tr : list sample) : list (list event) :=
  match tr with
  | [] => []
  | s :: tr =>
      let '(b1, ev1) := tick_sample b s in
      ev1 :: tick_log b1 tr
  end.

(** A stretch of ticks without any callback. *)
Definition silent {A : Type} (tr : list A) : list (list event) :=
  map (fun _ => []) tr.

(** Successive [_fsm] calls on a trace of (stable level, [millis()]). *)
Fixpoint run_fsm (b : OneButtonTiny) (tr : list (bool * Z))
  : OneButtonTiny * list event :=
  match tr with
  | [] => (b, [])
  | (lvl, ms) :: tr =>
      let '(b1, ev1) := _fsm b lvl ms in
      let '(b2, ev2) := run_fsm b1 tr in
      (b2, ev1 ++ ev2)
  end.

(** Successive [_debounce] calls on a trace of (raw level, [millis()]);
    the result lists the level returned by each call. *)
Fixpoint run_debounce (b : OneButtonTiny) (tr : list (bool * Z))
  : OneButtonTiny * list bool :=
  match tr with
  | [] => (b, [])
  | (lvl, ms) :: tr =>
      let '(b1, stable) := _debounce b lvl ms in
      let '(b2, out) := run_debounce b1 tr in
      (b2, stable :: out)
  end.

(** [n] calls of [tick(bool)] with the same level, one per millisecond,
    the first at [from]. *)
Fixpoint every_ms (level : bool) (from : Z) (n : nat) : list sample :=
  match n with
  | O => []
  | S n => at_ms from level :: every_ms level (from + 1) n
  end.

Definition count_events (p : event -> bool) (l : list event) : nat :=
  length (filter p l).

(** ** Type invariant of the packed byte *)

(** [_flags] is a [uint8_t]. *)
Definition wf (b : OneButtonTiny) : Prop := 0 <= _flags b < 256.

Definition all_bytes : list Z := map Z.of_nat (seq 0 256).

(** The five fields of a byte, and the ways the helpers write it. *)
Definition f_state (f : Z) : Z := Z.shiftr (Z.land f STATE_MASK) STATE_SHIFT.
Definition f_clicks (f : Z) : Z := Z.land f CLICKS_MASK.
Definition f_bit (m f : Z) : bool := to_bool (Z.land f m).
Definition w_state (s f : Z) : Z :=
  uint8 (Z.lor (Z.land f (Z.lnot STATE_MASK))
               (Z.land (Z.shiftl s STATE_SHIFT) STATE_MASK)).
Definition w_clicks (c f : Z) : Z :=
  uint8 (Z.lor (Z.land f (Z.lnot CLICKS_MASK)) (Z.land (uint8 c) CLICKS_MASK)).
Definition w_bit (m : Z) (v : bool) (f : Z) : Z :=
  if v then uint8 (Z.lor f m) else uint8 (Z.land f (Z.lnot m)).

(** A state constant of the enumeration, or one of the two spare codes
    that three bits can also hold. *)
Definition state_code (s : Z) : Prop := 0 <= s <= 7.

Definition level_flag (m : Z) : Prop :=
  m = FLAG_BUTTON_PRESSED \/ m = FLAG_LAST_LEVEL \/ m = FLAG_DEBOUNCED.

(** ** The fields the state machine works on, unpacked *)

(** What [_fsm] reads and writes: the state and the click count held in
    [_flags], the start time, the two thresholds and the three callbacks. *)
Record fsm_view : Type := mkView {
  v_state : Z;
  v_clicks : Z;
  v_start : Z;
  v_click_ms : Z;
  v_press_ms : Z;
  v_clickFunc : callbackFunction;
  v_doubleClickFunc : callbackFunction;
  v_longPressStartFunc : callbackFunction
}.

Definition fsm_view_of (b : OneButtonTiny) : fsm_view :=
  mkView (_getState b) (_getClicks b) (_startTime b) (_click_ms b)
    (_press_ms b) (_clickFunc b) (_doubleClickFunc b) (_longPressStartFunc b).

Definition v_goto (v : fsm_view) (s c t : Z) : fsm_view :=
  mkView s c t (v_click_ms v) (v_press_ms v) (v_clickFunc v)
    (v_doubleClickFunc v) (v_longPressStartFunc v).

(** What the counting state reports when it times out with [c] clicks. *)
Definition report (c : Z) (clickFunc doubleClickFunc : callbackFunction)
  : list event :=
  if c =? 1 then
    match clickFunc with Some f => [EvClick f] | None => [] end
  else if c >=? 2 then
    match doubleClickFunc with Some f => [EvDoubleClick f] | None => [] end
  else [].

(** The switch of [_fsm] read on the unpacked fields; [fsm_unpacked_ok]
    below shows that [_fsm] computes exactly this on the packed byte. *)
Definition fsm_unpacked (v : fsm_view) (activeLevel : bool) (millis : Z)
  : fsm_view * list event :=
  let now := _now millis in
  let waitTime := _elapsed now (v_start v) in
  let s := v_state v in
  let c := v_clicks v in
  if s =? OCS_INIT then
    if activeLevel then (v_goto v OCS_DOWN 0 now, []) else (v, [])
  else if s =? OCS_DOWN then
    if negb activeLevel then (v_goto v OCS_UP c now, [])
    else if waitTime >? v_press_ms v then
      (v_goto v OCS_PRESS c (v_start v),
       call EvLongPressStart (v_longPressStartFunc v))
    else (v, [])
  else if s =? OCS_UP then
    (v_goto v OCS_COUNT ((c + 1) mod 4) (v_start v), [])
  else if s =? OCS_COUNT then
    if activeLevel then (v_goto v OCS_DOWN c now, [])
    else if (waitTime >=? v_click_ms v) || (c >=? 2) then
      (v_goto v OCS_INIT 0 0, report c (v_clickFunc v) (v_doubleClickFunc v))
    else (v, [])
  else if s =? OCS_PRESS then
    if negb activeLevel then (v_goto v OCS_PRESSEND c now, []) else (v, [])
  else (v_goto v OCS_INIT 0 0, []).

(** The unpacked machine on a trace; the log keeps the callbacks of each
    call apart. *)
Fixpoint run_unpacked (v : fsm_view) (tr : list (bool * Z))
  : fsm_view * list (list event) :=
  match tr with
  | [] => (v, [])
  | (lvl, ms) :: tr =>
      let '(v1, ev1) := fsm_unpacked v lvl ms in
      let '(v2, log) := run_unpacked v1 tr in
      (v2, ev1 :: log)
  end.

(** What [_debounce] reads and writes. *)
Record debounce_view : Type := mkDebounceView {
  d_last : bool;
  d_stable : bool;
  d_changedAt : Z;
  d_debounce_ms : Z
}.

Definition debounce_view_of (b : OneButtonTiny) : debounce_view :=
  mkDebounceView (_getLastLevel b) (_getDebouncedLevel b)
    (_lastDebounceTime b) (_debounce_ms b).

(** The stable level a trace of ticks hands to [_fsm], with the clock
    reading [_fsm] takes in the same tick. *)
Fixpoint stable_trace (b : OneButtonTiny) (tr : list sample)
  : list (bool * Z) :=
  match tr with
  | [] => []
  | s :: tr =>
      let '(b1, stable) := _debounce b (s_level s) (s_millis_debounce s) in
      (stable, s_millis_fsm s) :: stable_trace (fst (_fsm b1 stable (s_millis_fsm s))) tr
  end.

(** The unchanged members of the object. *)
Definition same_config (b b' : OneButtonTiny) : Prop :=
  _click_ms b' = _click_ms b /\ _press_ms b' = _press_ms b /\
  _clickFunc b' = _clickFunc b /\ _doubleClickFunc b' = _doubleClickFunc b /\
  _longPressStartFunc b' = _longPressStartFunc b /\ _pin b' = _pin b /\
  _debounce_ms b' = _debounce_ms b /\
  _getButtonPressed b' = _getButtonPressed b.

(** [_debounce] read on the unpacked fields; see [debounce_unpacked_ok]. *)
Definition debounce_unpacked (d : debounce_view) (level : bool) (millis : Z)
  : debounce_view :=
  let now := _now millis in
  if Bool.eqb (d_last d) level then
    if uint16 (now - d_changedAt d) >=? uint8 (Z.shiftr (d_debounce_ms d) 2)
    then mkDebounceView (d_last d) level (d_changedAt d) (d_debounce_ms d)
    else d
  else mkDebounceView level (d_stable d) now (d_debounce_ms d).

(** ** Stretches of a trace of stable levels *)

(** The button is seen released throughout. *)
Definition inactive (seg : list (bool * Z)) : bool :=
  forallb (fun s => negb (fst s)) seg.

(** The button is seen pressed throughout. *)
Definition active (seg : list (bool * Z)) : bool :=
  forallb (fun s => fst s) seg.

(** The button is seen pressed, and the time [_fsm] measures since [start]
    has not passed [press_ms]. *)
Definition held_below (press_ms start : Z) (seg : list (bool * Z)) : bool :=
  forallb (fun s => fst s && (_elapsed (_now (snd s)) start <=? press_ms)) seg.

(** The button is seen released, and the time [_fsm] measures since [start]
    has not reached [click_ms]. *)
Definition waiting_below (click_ms start : Z) (seg : list (bool * Z)) : bool :=
  forallb (fun s => negb (fst s) && (_elapsed (_now (snd s)) start <? click_ms)) seg.

(** One press seen at [p] and held through [hold], its release seen at [r],
    and the tick [u] that follows the release. *)
Definition cycle (p : Z) (hold : list (bool * Z)) (r : Z) (u : bool * Z)
  : list (bool * Z) :=
  (true, p) :: hold ++ [(false, r); u].

(** Put a log in front of the log of a run. *)
Definition prepend (l : list (list event)) (r : fsm_view * list (list event))
  : fsm_view * list (list event) :=
  (fst r, l ++ snd r).


(** ** The objects a program can hold *)

(** What the public interface can produce: the constructor, then setters,
    attachments, [reset()] and the two [tick] overloads in any order.  The
    three interrupt functions only call into the pin-change library and
    leave the object alone. *)
Inductive reachable : OneButtonTiny -> Prop :=
| reach_new pin activeLow pullupActive :
    reachable (OneButtonTiny_new pin activeLow pullupActive)
| reach_setDebounceMs b ms : reachable b -> reachable (setDebounceMs b ms)
| reach_setClickMs b ms : reachable b -> reachable (setClickMs b ms)
| reach_setPressMs b ms : reachable b -> reachable (setPressMs b ms)
| reach_attachClick b f : reachable b -> reachable (attachClick b f)
| reach_attachDoubleClick b f : reachable b -> reachable (attachDoubleClick b f)
| reach_attachLongPressStart b f :
    reachable b -> reachable (attachLongPressStart b f)
| reach_reset b : reachable b -> reachable (reset b)
| reach_tick b rawLevel m1 m2 :
    reachable b -> reachable (fst (tick b rawLevel m1 m2))
| reach_tick_level b activeLevel m1 m2 :
    reachable b -> reachable (fst (tick_level b activeLevel m1 m2)).

(** The states of the enumeration. *)
Definition defined_states : list stateMachine_t :=
  [OCS_INIT; OCS_DOWN; OCS_UP; OCS_COUNT; OCS_PRESS; OCS_PRESSEND].

(** A button with the defaults of the header, used through [tick(bool)],
    with a handler in each of the three slots. *)
Definition default_button : OneButtonTiny :=
  attachLongPressStart
    (attachDoubleClick
       (attachClick (OneButtonTiny_new 2 true true) (Some 1%nat))
       (Some 2%nat))
    (Some 3%nat).

(** ** Ticks on the true time axis *)

(** A tick of [tick(bool)] with the true times, in milliseconds since
    start-up and of any size, at which its two clock readings are taken;
    [millis()] shows them modulo 2^32. *)
Record timed : Type := mkTimed {
  t_level : bool;
  t_debounce : Z;
  t_fsm : Z
}.

Definition sample_at (x : timed) : sample :=
  mkSample (t_level x) (uint32 (t_debounce x)) (uint32 (t_fsm x)).

(** Walking back from the latest tick: the time of the earliest tick of the
    unbroken run of ticks that showed [level]. *)
Fixpoint run_start (level : bool) (latest_first : list timed) (acc : option Z)
  : option Z :=
  match latest_first with
  | [] => acc
  | x :: older =>
      if Bool.eqb (t_level x) level
      then run_start level older (Some (t_debounce x))
      else acc
  end.

(** Since when the ticks of [history] (earliest first) have shown [level]
    without interruption; [None] when the last one did not. *)
Definition level_since (history : list timed) (level : bool) : option Z :=
  run_start level (rev history) None.

(** At the tick [s] that follows [history], the raw level has shown the
    level of [s] at every tick for [d] milliseconds or more. *)
Definition held_for (d : Z) (history : list timed) (s : timed) : bool :=
  match level_since history (t_level s) with
  | Some t0 => d <=? t_debounce s - t0
  | None => false
  end.

(** No tick of [history] is later than [s]. *)
Definition not_before (history : list timed) (s : timed) : Prop :=
  Forall (fun x => t_debounce x <= t_debounce s) history.

(** What the filter knows after the ticks of a history, latest first. *)
Definition filter_inv (d : debounce_view) (latest_first : list timed) : Prop :=
  match latest_first with
  | [] => True
  | x :: _ => d_last d = t_level x
  end /\
  (d_stable d = d_last d \/
   exists t0, run_start (d_last d) latest_first None = Some t0 /\
              d_changedAt d = _now (uint32 t0)).

(** ** Further notions *)

(** What the public interface can make of a given object: setters,
    attachments, [reset()] and the two [tick] overloads in any order. *)
Inductive derived (b0 : OneButtonTiny) : OneButtonTiny -> Prop :=
| der_self : derived b0 b0
| der_setDebounceMs b ms : derived b0 b -> derived b0 (setDebounceMs b ms)
| der_setClickMs b ms : derived b0 b -> derived b0 (setClickMs b ms)
| der_setPressMs b ms : derived b0 b -> derived b0 (setPressMs b ms)
| der_attachClick b f : derived b0 b -> derived b0 (attachClick b f)
| der_attachDoubleClick b f : derived b0 b -> derived b0 (attachDoubleClick b f)
| der_attachLongPressStart b f :
    derived b0 b -> derived b0 (attachLongPressStart b f)
| der_reset b : derived b0 b -> derived b0 (reset b)
| der_tick b rawLevel m1 m2 :
    derived b0 b -> derived b0 (fst (tick b rawLevel m1 m2))
| der_tick_level b activeLevel m1 m2 :
    derived b0 b -> derived b0 (fst (tick_level b activeLevel m1 m2)).

(** The handler an event was called with sits in the slot of its kind. *)
Definition from_slot (b : OneButtonTiny) (e : event) : Prop :=
  match e with
  | EvClick f => _clickFunc b = Some f
  | EvDoubleClick f => _doubleClickFunc b = Some f
  | EvLongPressStart f => _longPressStartFunc b = Some f
  end.

(** Along [rest], which follows [history], the clock does not run
    backwards and no tick that shows the button pressed has seen it pressed
    at every tick for [d] milliseconds or more. *)
Fixpoint pulses_shorter (d : Z) (history rest : list timed) : bool :=
  match rest with
  | [] => true
  | s :: rest =>
      forallb (fun x => t_debounce x <=? t_debounce s) history &&
      (negb (t_level s) || negb (held_for d history s)) &&
      pulses_shorter d (history ++ [s]) rest
  end.

(** [pin()] of the public interface. *)
Definition pin (b : OneButtonTiny) : Z := _pin b.

(** No handler in any of the three slots. *)
Definition no_handlers (b : OneButtonTiny) : Prop :=
  _clickFunc b = nullptr /\ _doubleClickFunc b = nullptr /\
  _longPressStartFunc b = nullptr.

(** * Lemmas *)

(** ** The packed byte *)

Lemma all_bytes_complete (f : Z) : 0 <= f < 256 -> In f all_bytes.
Proof.
  intros Hf. unfold all_bytes. apply in_map_iff.
  exists (Z.to_nat f). split; [lia|]. apply in_seq. lia.
Qed.

Lemma byte_cases (P : Z -> bool) :
  forallb P all_bytes = true -> forall f, 0 <= f < 256 -> P f = true.
Proof.
  intros H f Hf. rewrite forallb_forall in H. apply H.
  now apply all_bytes_complete.
Qed.

(** Decide an equation between two functions of a byte by running both on
    the 256 bytes. *)
Ltac bytes_Z :=
  match goal with
  | |- forall f : Z, 0 <= f < 256 -> @?A f = @?B f =>
      let f := fresh "f" in
      let Hf := fresh "Hf" in
      intros f Hf; apply Z.eqb_eq; revert f Hf;
      apply (byte_cases (fun f => A f =? B f)); vm_compute; reflexivity
  end.

Ltac bytes_bool :=
  match goal with
  | |- forall f : Z, 0 <= f < 256 -> @?A f = @?B f =>
      let f := fresh "f" in
      let Hf := fresh "Hf" in
      intros f Hf; apply Bool.eqb_prop; revert f Hf;
      apply (byte_cases (fun f => Bool.eqb (A f) (B f))); vm_compute; reflexivity
  end.

Ltac each_state s H :=
  let Hcases := fresh in
  unfold state_code in H;
  assert (s = 0 \/ s = 1 \/ s = 2 \/ s = 3 \/ s = 4 \/ s = 5 \/ s = 6 \/ s = 7)
    as Hcases by lia;
  clear H; repeat (destruct Hcases as [-> | Hcases]); [.. | subst s].

Ltac each_bit m H :=
  unfold level_flag in H;
  repeat (destruct H as [-> | H]); [.. | subst m].

Lemma uint8_range z : 0 <= uint8 z < 256.
Proof. unfold uint8. apply Z.mod_pos_bound. lia. Qed.

Lemma uint16_range z : 0 <= uint16 z < 65536.
Proof. unfold uint16. apply Z.mod_pos_bound. lia. Qed.

Lemma w_state_range s f : 0 <= w_state s f < 256.
Proof. apply uint8_range. Qed.

Lemma w_clicks_range c f : 0 <= w_clicks c f < 256.
Proof. apply uint8_range. Qed.

Lemma w_bit_range m v f : 0 <= w_bit m v f < 256.
Proof. destruct v; apply uint8_range. Qed.

Lemma state_w_state s : state_code s ->
  forall f, 0 <= f < 256 -> f_state (w_state s f) = s.
Proof. intros H. each_state s H; bytes_Z. Qed.

Lemma clicks_w_state s : state_code s ->
  forall f, 0 <= f < 256 -> f_clicks (w_state s f) = f_clicks f.
Proof. intros H. each_state s H; bytes_Z. Qed.

Lemma bit_w_state s m : state_code s -> level_flag m ->
  forall f, 0 <= f < 256 -> f_bit m (w_state s f) = f_bit m f.
Proof. intros H Hm. each_state s H; each_bit m Hm; bytes_bool. Qed.

(** Only the two low bits of the argument of [_setClicks] matter. *)
Lemma w_clicks_low c f : w_clicks c f = w_clicks (c mod 4) f.
Proof.
  unfold w_clicks. do 2 f_equal. unfold uint8, CLICKS_MASK.
  change 3 with (Z.ones 2). rewrite !Z.land_ones by lia.
  change (2 ^ 2) with 4.
  rewrite !(Z.mod_mod_divide _ 256 4) by (exists 64; lia).
  now rewrite Z.mod_mod by lia.
Qed.

Ltac each_count c :=
  intros; rewrite (w_clicks_low c);
  let H := fresh in
  assert (c mod 4 = 0 \/ c mod 4 = 1 \/ c mod 4 = 2 \/ c mod 4 = 3) as H
    by (pose proof (Z.mod_pos_bound c 4); lia);
  repeat (destruct H as [H | H]); rewrite H;
  match goal with
  | Hf : 0 <= ?f < 256 |- _ => revert f Hf
  end.

Lemma state_w_clicks c :
  forall f, 0 <= f < 256 -> f_state (w_clicks c f) = f_state f.
Proof. each_count c; bytes_Z. Qed.

Lemma clicks_w_clicks c :
  forall f, 0 <= f < 256 -> f_clicks (w_clicks c f) = c mod 4.
Proof. each_count c; bytes_Z. Qed.

Lemma bit_w_clicks c m : level_flag m ->
  forall f, 0 <= f < 256 -> f_bit m (w_clicks c f) = f_bit m f.
Proof. intros Hm. each_bit m Hm; each_count c; bytes_bool. Qed.

Lemma state_w_bit m v : level_flag m ->
  forall f, 0 <= f < 256 -> f_state (w_bit m v f) = f_state f.
Proof. intros Hm. destruct v; each_bit m Hm; bytes_Z. Qed.

Lemma clicks_w_bit m v : level_flag m ->
  forall f, 0 <= f < 256 -> f_clicks (w_bit m v f) = f_clicks f.
Proof. intros Hm. destruct v; each_bit m Hm; bytes_Z. Qed.

Lemma bit_w_bit_same m v : level_flag m ->
  forall f, 0 <= f < 256 -> f_bit m (w_bit m v f) = v.
Proof. intros Hm. destruct v; each_bit m Hm; bytes_bool. Qed.

Lemma bit_w_bit_other m m' v : level_flag m -> level_flag m' -> m <> m' ->
  forall f, 0 <= f < 256 -> f_bit m (w_bit m' v f) = f_bit m f.
Proof.
  intros Hm Hm' Hne.
  destruct v; each_bit m Hm; each_bit m' Hm'; try congruence; bytes_bool.
Qed.

Lemma f_state_range f : 0 <= f_state f <= 7.
Proof.
  unfold f_state, STATE_MASK, STATE_SHIFT.
  rewrite Z.shiftr_land. change (Z.shiftr 28 2) with (Z.ones 3).
  rewrite Z.land_ones by lia.
  pose proof (Z.mod_pos_bound (Z.shiftr f 2) (2 ^ 3)). lia.
Qed.



(** ** Getters after setters *)

Lemma getState_f b : _getState b = f_state (_flags b).
Proof. reflexivity. Qed.
Lemma getClicks_f b : _getClicks b = f_clicks (_flags b).
Proof. reflexivity. Qed.
Lemma getButtonPressed_f b : _getButtonPressed b = f_bit FLAG_BUTTON_PRESSED (_flags b).
Proof. reflexivity. Qed.
Lemma getLastLevel_f b : _getLastLevel b = f_bit FLAG_LAST_LEVEL (_flags b).
Proof. reflexivity. Qed.
Lemma getDebouncedLevel_f b : _getDebouncedLevel b = f_bit FLAG_DEBOUNCED (_flags b).
Proof. reflexivity. Qed.
Lemma setState_f b s : _flags (_setState b s) = w_state s (_flags b).
Proof. reflexivity. Qed.
Lemma setClicks_f b c : _flags (_setClicks b c) = w_clicks c (_flags b).
Proof. reflexivity. Qed.
Lemma setLastLevel_f b v : _flags (_setLastLevel b v) = w_bit FLAG_LAST_LEVEL v (_flags b).
Proof. now destruct v. Qed.
Lemma setDebouncedLevel_f b v :
  _flags (_setDebouncedLevel b v) = w_bit FLAG_DEBOUNCED v (_flags b).
Proof. now destruct v. Qed.

Lemma pressed_flag : level_flag FLAG_BUTTON_PRESSED.
Proof. unfold level_flag; auto. Qed.
Lemma last_flag : level_flag FLAG_LAST_LEVEL.
Proof. unfold level_flag; auto. Qed.
Lemma debounced_flag : level_flag FLAG_DEBOUNCED.
Proof. unfold level_flag; auto. Qed.

Create HintDb wf_db.

Lemma wf_setState b s : wf (_setState b s).
Proof. apply uint8_range. Qed.
Lemma wf_setClicks b c : wf (_setClicks b c).
Proof. apply uint8_range. Qed.
Lemma wf_setLastLevel b v : wf (_setLastLevel b v).
Proof. destruct v; apply uint8_range. Qed.
Lemma wf_setDebouncedLevel b v : wf (_setDebouncedLevel b v).
Proof. destruct v; apply uint8_range. Qed.
Lemma wf_with_startTime b t : wf b -> wf (with_startTime b t).
Proof. auto. Qed.
Lemma wf_with_lastDebounceTime b t : wf b -> wf (with_lastDebounceTime b t).
Proof. auto. Qed.
Lemma wf_with_state b s : wf b -> wf (with_state b s).
Proof. auto. Qed.
Lemma wf_reset b : wf (reset b).
Proof. apply uint8_range. Qed.
Lemma wf_new pin al pu : wf (OneButtonTiny_new pin al pu).
Proof. destruct al; cbv; intuition congruence. Qed.

#[local] Hint Resolve wf_setState wf_setClicks wf_setLastLevel
  wf_setDebouncedLevel wf_with_startTime wf_with_lastDebounceTime
  wf_with_state wf_reset wf_new pressed_flag last_flag debounced_flag : wf_db.

Section Fields.
Variable b : OneButtonTiny.
Hypothesis Hwf : wf b.

Lemma getState_setState s : state_code s -> _getState (_setState b s) = s.
Proof. intros. now apply state_w_state. Qed.

Lemma getClicks_setState s : state_code s ->
  _getClicks (_setState b s) = _getClicks b.
Proof. intros. now apply clicks_w_state. Qed.

Lemma getState_setClicks c : _getState (_setClicks b c) = _getState b.
Proof. now apply state_w_clicks. Qed.

Lemma getClicks_setClicks c : _getClicks (_setClicks b c) = c mod 4.
Proof. now apply clicks_w_clicks. Qed.

Lemma getLastLevel_setState s : state_code s ->
  _getLastLevel (_setState b s) = _getLastLevel b.
Proof. intros. apply bit_w_state; auto with wf_db. Qed.

Lemma getDebouncedLevel_setState s : state_code s ->
  _getDebouncedLevel (_setState b s) = _getDebouncedLevel b.
Proof. intros. apply bit_w_state; auto with wf_db. Qed.

Lemma getButtonPressed_setState s : state_code s ->
  _getButtonPressed (_setState b s) = _getButtonPressed b.
Proof. intros. apply bit_w_state; auto with wf_db. Qed.

Lemma getLastLevel_setClicks c :
  _getLastLevel (_setClicks b c) = _getLastLevel b.
Proof. apply bit_w_clicks; auto with wf_db. Qed.

Lemma getDebouncedLevel_setClicks c :
  _getDebouncedLevel (_setClicks b c) = _getDebouncedLevel b.
Proof. apply bit_w_clicks; auto with wf_db. Qed.

Lemma getButtonPressed_setClicks c :
  _getButtonPressed (_setClicks b c) = _getButtonPressed b.
Proof. apply bit_w_clicks; auto with wf_db. Qed.

Lemma getState_setLastLevel v : _getState (_setLastLevel b v) = _getState b.
Proof.
  rewrite !getState_f, setLastLevel_f. apply state_w_bit; auto with wf_db.
Qed.

Lemma getClicks_setLastLevel v : _getClicks (_setLastLevel b v) = _getClicks b.
Proof.
  rewrite !getClicks_f, setLastLevel_f. apply clicks_w_bit; auto with wf_db.
Qed.

Lemma getState_setDebouncedLevel v :
  _getState (_setDebouncedLevel b v) = _getState b.
Proof.
  rewrite !getState_f, setDebouncedLevel_f. apply state_w_bit; auto with wf_db.
Qed.

Lemma getClicks_setDebouncedLevel v :
  _getClicks (_setDebouncedLevel b v) = _getClicks b.
Proof.
  rewrite !getClicks_f, setDebouncedLevel_f. apply clicks_w_bit; auto with wf_db.
Qed.

Lemma getLastLevel_setLastLevel v : _getLastLevel (_setLastLevel b v) = v.
Proof.
  rewrite getLastLevel_f, setLastLevel_f. apply bit_w_bit_same; auto with wf_db.
Qed.

Lemma getDebouncedLevel_setDebouncedLevel v :
  _getDebouncedLevel (_setDebouncedLevel b v) = v.
Proof.
  rewrite getDebouncedLevel_f, setDebouncedLevel_f.
  apply bit_w_bit_same; auto with wf_db.
Qed.

Lemma getDebouncedLevel_setLastLevel v :
  _getDebouncedLevel (_setLastLevel b v) = _getDebouncedLevel b.
Proof.
  rewrite !getDebouncedLevel_f, setLastLevel_f.
  apply bit_w_bit_other; auto with wf_db. discriminate.
Qed.

Lemma getLastLevel_setDebouncedLevel v :
  _getLastLevel (_setDebouncedLevel b v) = _getLastLevel b.
Proof.
  rewrite !getLastLevel_f, setDebouncedLevel_f.
  apply bit_w_bit_other; auto with wf_db. discriminate.
Qed.

Lemma getButtonPressed_setLastLevel v :
  _getButtonPressed (_setLastLevel b v) = _getButtonPressed b.
Proof.
  rewrite !getButtonPressed_f, setLastLevel_f.
  apply bit_w_bit_other; auto with wf_db. discriminate.
Qed.

Lemma getButtonPressed_setDebouncedLevel v :
  _getButtonPressed (_setDebouncedLevel b v) = _getButtonPressed b.
Proof.
  rewrite !getButtonPressed_f, setDebouncedLevel_f.
  apply bit_w_bit_other; auto with wf_db. discriminate.
Qed.

End Fields.

Lemma getState_range b : 0 <= _getState b <= 7.
Proof. apply f_state_range. Qed.


(** ** Field updates that leave the byte alone *)

Lemma getState_with_startTime b t : _getState (with_startTime b t) = _getState b.
Proof. reflexivity. Qed.
Lemma getState_with_state b s : _getState (with_state b s) = _getState b.
Proof. reflexivity. Qed.
Lemma getState_with_lastDebounceTime b t :
  _getState (with_lastDebounceTime b t) = _getState b.
Proof. reflexivity. Qed.
Lemma getClicks_with_startTime b t : _getClicks (with_startTime b t) = _getClicks b.
Proof. reflexivity. Qed.
Lemma getClicks_with_state b s : _getClicks (with_state b s) = _getClicks b.
Proof. reflexivity. Qed.
Lemma getClicks_with_lastDebounceTime b t :
  _getClicks (with_lastDebounceTime b t) = _getClicks b.
Proof. reflexivity. Qed.
Lemma getLastLevel_with_startTime b t :
  _getLastLevel (with_startTime b t) = _getLastLevel b.
Proof. reflexivity. Qed.
Lemma getLastLevel_with_state b s : _getLastLevel (with_state b s) = _getLastLevel b.
Proof. reflexivity. Qed.
Lemma getLastLevel_with_lastDebounceTime b t :
  _getLastLevel (with_lastDebounceTime b t) = _getLastLevel b.
Proof. reflexivity. Qed.
Lemma getDebouncedLevel_with_startTime b t :
  _getDebouncedLevel (with_startTime b t) = _getDebouncedLevel b.
Proof. reflexivity. Qed.
Lemma getDebouncedLevel_with_state b s :
  _getDebouncedLevel (with_state b s) = _getDebouncedLevel b.
Proof. reflexivity. Qed.
Lemma getDebouncedLevel_with_lastDebounceTime b t :
  _getDebouncedLevel (with_lastDebounceTime b t) = _getDebouncedLevel b.
Proof. reflexivity. Qed.
Lemma getButtonPressed_with_startTime b t :
  _getButtonPressed (with_startTime b t) = _getButtonPressed b.
Proof. reflexivity. Qed.
Lemma getButtonPressed_with_state b s :
  _getButtonPressed (with_state b s) = _getButtonPressed b.
Proof. reflexivity. Qed.
Lemma getButtonPressed_with_lastDebounceTime b t :
  _getButtonPressed (with_lastDebounceTime b t) = _getButtonPressed b.
Proof. reflexivity. Qed.

Create Rewrite HintDb fields.

#[local] Hint Rewrite
  getState_with_startTime getState_with_state getState_with_lastDebounceTime
  getClicks_with_startTime getClicks_with_state getClicks_with_lastDebounceTime
  getLastLevel_with_startTime getLastLevel_with_state
  getLastLevel_with_lastDebounceTime
  getDebouncedLevel_with_startTime getDebouncedLevel_with_state
  getDebouncedLevel_with_lastDebounceTime
  getButtonPressed_with_startTime getButtonPressed_with_state
  getButtonPressed_with_lastDebounceTime : fields.

#[local] Hint Rewrite
  getState_setState getClicks_setState getState_setClicks getClicks_setClicks
  getLastLevel_setState getDebouncedLevel_setState getButtonPressed_setState
  getLastLevel_setClicks getDebouncedLevel_setClicks getButtonPressed_setClicks
  getState_setLastLevel getClicks_setLastLevel
  getState_setDebouncedLevel getClicks_setDebouncedLevel
  getLastLevel_setLastLevel getDebouncedLevel_setDebouncedLevel
  getDebouncedLevel_setLastLevel getLastLevel_setDebouncedLevel
  getButtonPressed_setLastLevel getButtonPressed_setDebouncedLevel
  using (solve [auto with wf_db | unfold state_code; cbv; intuition congruence])
  : fields.

Ltac fields := autorewrite with fields.

(** ** [reset] *)

Lemma reset_view b : wf b ->
  fsm_view_of (reset b) = v_goto (fsm_view_of b) OCS_INIT 0 0.
Proof.
  intros Hwf. unfold reset, fsm_view_of, v_goto. cbn [v_click_ms v_press_ms
    v_clickFunc v_doubleClickFunc v_longPressStartFunc].
  fields. reflexivity.
Qed.

Lemma reset_debounce_view b : wf b ->
  debounce_view_of (reset b) = debounce_view_of b.
Proof.
  intros Hwf. unfold reset, debounce_view_of. fields. reflexivity.
Qed.

Lemma reset_same_config b : wf b -> same_config b (reset b).
Proof.
  intros Hwf. unfold same_config, reset. fields. repeat split; reflexivity.
Qed.

Lemma reset_legacy b : _state (reset b) = OCS_INIT.
Proof. reflexivity. Qed.

(** ** [_fsm] on the packed byte computes [fsm_unpacked] *)

Lemma getState_cases b :
  _getState b = OCS_INIT \/ _getState b = OCS_DOWN \/ _getState b = OCS_UP \/
  _getState b = OCS_COUNT \/ _getState b = OCS_PRESS \/
  _getState b = OCS_PRESSEND \/ _getState b = 6 \/ _getState b = 7.
Proof.
  pose proof (getState_range b).
  unfold OCS_INIT, OCS_DOWN, OCS_UP, OCS_COUNT, OCS_PRESS, OCS_PRESSEND. lia.
Qed.

Lemma fsm_unpacked_ok b lvl ms : wf b ->
  fsm_view_of (fst (_fsm b lvl ms)) = fst (fsm_unpacked (fsm_view_of b) lvl ms) /\
  snd (_fsm b lvl ms) = snd (fsm_unpacked (fsm_view_of b) lvl ms).
Proof.
  intros Hwf. unfold _fsm, fsm_unpacked, _elapsed.
  cbn [fsm_view_of v_state v_clicks v_start v_click_ms v_press_ms v_clickFunc
       v_doubleClickFunc v_longPressStartFunc].
  destruct (getState_cases b) as [H|[H|[H|[H|[H|[H|[H|H]]]]]]]; rewrite H;
    cbn [Z.eqb OCS_INIT OCS_DOWN OCS_UP OCS_COUNT OCS_PRESS OCS_PRESSEND Pos.eqb].
  all: destruct lvl; cbn [negb fst snd];
    repeat match goal with
      | |- context [if ?c then _ else _] =>
          lazymatch c with
          | _ >? _ => destruct c
          | _ || _ => destruct c
          end
      end; cbn [fst snd]; split; try reflexivity.
  all: try (rewrite <- reset_view by assumption).
  all: try (unfold fsm_view_of, v_goto; fields;
            try rewrite Z.mod_mod_divide by (exists 64; lia); reflexivity).
  all: unfold report; destruct (Z.eqb_spec (_getClicks b) 1) as [->|];
    [destruct (_clickFunc b)|]; try reflexivity;
    destruct (_getClicks b >=? 2); reflexivity.
Qed.

Lemma fsm_wf b lvl ms : wf b -> wf (fst (_fsm b lvl ms)).
Proof.
  intros Hwf. unfold _fsm.
  repeat match goal with
    | |- context [if ?c then _ else _] => destruct c
    end; cbn [fst]; auto 6 with wf_db.
Qed.

Lemma fsm_legacy b lvl ms :
  _state (fst (_fsm b lvl ms)) = _getState (fst (_fsm b lvl ms)).
Proof.
  unfold _fsm.
  repeat match goal with
    | |- context [if ?c then _ else _] => destruct c
    end; reflexivity.
Qed.

Lemma fsm_debounce_view b lvl ms : wf b ->
  debounce_view_of (fst (_fsm b lvl ms)) = debounce_view_of b.
Proof.
  intros Hwf. unfold _fsm.
  repeat match goal with
    | |- context [if ?c then _ else _] => destruct c
    end; cbn [fst]; try reflexivity;
    try (rewrite <- (reset_debounce_view b) by assumption; reflexivity);
    unfold debounce_view_of; fields; reflexivity.
Qed.

Lemma fsm_same_config b lvl ms : wf b -> same_config b (fst (_fsm b lvl ms)).
Proof.
  intros Hwf.
  assert (Hr : same_config b (with_state (reset b) (_getState (reset b)))).
  { pose proof (reset_same_config b Hwf) as Hc. unfold same_config in *.
    fields. exact Hc. }
  unfold _fsm.
  repeat match goal with
    | |- context [if ?c then _ else _] => destruct c
    end; cbn [fst]; try exact Hr;
    unfold same_config; fields; repeat split; reflexivity.
Qed.

(** ** [_debounce] *)

Lemma debounce_returns b lvl ms :
  snd (_debounce b lvl ms) = _getDebouncedLevel (fst (_debounce b lvl ms)).
Proof. reflexivity. Qed.

Lemma debounce_wf b lvl ms : wf b -> wf (fst (_debounce b lvl ms)).
Proof.
  intros Hwf. unfold _debounce. cbn [fst].
  repeat match goal with
    | |- context [if ?c then _ else _] => destruct c
    end; auto with wf_db.
Qed.

Lemma debounce_unpacked_ok b lvl ms : wf b ->
  debounce_view_of (fst (_debounce b lvl ms)) =
  debounce_unpacked (debounce_view_of b) lvl ms.
Proof.
  intros Hwf. unfold _debounce, debounce_unpacked. cbn [fst].
  cbn [debounce_view_of d_last d_stable d_changedAt d_debounce_ms].
  repeat match goal with
    | |- context [if ?c then _ else _] => destruct c
    end; unfold debounce_view_of; fields; try reflexivity.
  all: destruct lvl; reflexivity.
Qed.

Lemma debounce_fsm_view b lvl ms : wf b ->
  fsm_view_of (fst (_debounce b lvl ms)) = fsm_view_of b.
Proof.
  intros Hwf. unfold _debounce. cbn [fst].
  repeat match goal with
    | |- context [if ?c then _ else _] => destruct c
    end; unfold fsm_view_of; fields; try reflexivity.
  all: destruct lvl; reflexivity.
Qed.

Lemma debounce_legacy b lvl ms : _state (fst (_debounce b lvl ms)) = _state b.
Proof.
  unfold _debounce. cbn [fst].
  repeat match goal with
    | |- context [if ?c then _ else _] => destruct c
    end; try reflexivity; destruct lvl; reflexivity.
Qed.

Lemma debounce_same_config b lvl ms : wf b ->
  same_config b (fst (_debounce b lvl ms)).
Proof.
  intros Hwf. unfold _debounce. cbn [fst].
  repeat match goal with
    | |- context [if ?c then _ else _] => destruct c
    end; unfold same_config; fields; repeat split; try reflexivity;
    destruct lvl; reflexivity.
Qed.

(** ** A tick is [_debounce] followed by [_fsm] *)

Lemma tick_level_eq b lvl m1 m2 :
  tick_level b lvl m1 m2 =
  _fsm (fst (_debounce b lvl m1)) (snd (_debounce b lvl m1)) m2.
Proof. unfold tick_level. now destruct (_debounce b lvl m1). Qed.

Lemma tick_level_wf b lvl m1 m2 : wf b -> wf (fst (tick_level b lvl m1 m2)).
Proof. intros. rewrite tick_level_eq. now apply fsm_wf, debounce_wf. Qed.

Lemma tick_level_debounce_view b lvl m1 m2 : wf b ->
  debounce_view_of (fst (tick_level b lvl m1 m2)) =
  debounce_unpacked (debounce_view_of b) lvl m1.
Proof.
  intros. rewrite tick_level_eq, fsm_debounce_view by now apply debounce_wf.
  now apply debounce_unpacked_ok.
Qed.

Lemma run_fsm_app b tr1 tr2 :
  run_fsm b (tr1 ++ tr2) =
  (fst (run_fsm (fst (run_fsm b tr1)) tr2),
   snd (run_fsm b tr1) ++ snd (run_fsm (fst (run_fsm b tr1)) tr2)).
Proof.
  revert b. induction tr1 as [|[l m] tr1 IH]; intros b; cbn [run_fsm app fst snd].
  - now destruct (run_fsm b tr2).
  - destruct (_fsm b l m) as [b1 e1]. rewrite IH.
    destruct (run_fsm b1 tr1) as [b2 e2]. cbn [fst snd].
    now rewrite app_assoc.
Qed.

Lemma run_ticks_app b tr1 tr2 :
  run_ticks b (tr1 ++ tr2) =
  (fst (run_ticks (fst (run_ticks b tr1)) tr2),
   snd (run_ticks b tr1) ++ snd (run_ticks (fst (run_ticks b tr1)) tr2)).
Proof.
  revert b. induction tr1 as [|s tr1 IH]; intros b; cbn [run_ticks app fst snd].
  - now destruct (run_ticks b tr2).
  - destruct (tick_sample b s) as [b1 e1]. rewrite IH.
    destruct (run_ticks b1 tr1) as [b2 e2]. cbn [fst snd].
    now rewrite app_assoc.
Qed.

Lemma run_ticks_wf b tr : wf b -> wf (fst (run_ticks b tr)).
Proof.
  revert b. induction tr as [|s tr IH]; intros b Hwf; cbn [run_ticks]; auto.
  destruct (tick_sample b s) as [b1 e1] eqn:E.
  assert (wf b1) by (change b1 with (fst (b1, e1)); rewrite <- E;
                     now apply tick_level_wf).
  specialize (IH b1 H). now destruct (run_ticks b1 tr).
Qed.

Lemma tick_log_events b tr : concat (tick_log b tr) = snd (run_ticks b tr).
Proof.
  revert b. induction tr as [|s tr IH]; intros b; cbn [tick_log run_ticks]; auto.
  destruct (tick_sample b s) as [b1 e1]. cbn [concat]. rewrite IH.
  now destruct (run_ticks b1 tr).
Qed.

(** The callbacks of a trace of ticks are those of the unpacked state
    machine on the levels the filter lets through. *)
Lemma run_ticks_unpacked b tr : wf b ->
  fsm_view_of (fst (run_ticks b tr)) =
    fst (run_unpacked (fsm_view_of b) (stable_trace b tr)) /\
  tick_log b tr = snd (run_unpacked (fsm_view_of b) (stable_trace b tr)).
Proof.
  revert b. induction tr as [|s tr IH]; intros b Hwf;
    cbn [run_ticks tick_log stable_trace run_unpacked fst snd]; auto.
  unfold tick_sample. rewrite tick_level_eq.
  pose proof (debounce_wf b (s_level s) (s_millis_debounce s) Hwf) as Hwf1.
  pose proof (debounce_fsm_view b (s_level s) (s_millis_debounce s) Hwf) as Hv.
  destruct (_debounce b (s_level s) (s_millis_debounce s)) as [b1 st].
  cbn [fst snd] in *.
  destruct (fsm_unpacked_ok b1 st (s_millis_fsm s) Hwf1) as [Hf He].
  pose proof (fsm_wf b1 st (s_millis_fsm s) Hwf1) as Hwf2.
  destruct (_fsm b1 st (s_millis_fsm s)) as [b2 e1]. cbn [fst snd] in *.
  destruct (IH b2 Hwf2) as [IHf IHe].
  cbn [run_unpacked]. rewrite <- Hv.
  destruct (fsm_unpacked (fsm_view_of b1) st (s_millis_fsm s)) as [v1 e1'].
  cbn [fst snd] in *. subst v1 e1'.
  destruct (run_ticks b2 tr) as [b3 e2]. cbn [fst snd] in *.
  destruct (run_unpacked (fsm_view_of b2) (stable_trace b2 tr)) as [v3 e3].
  cbn [fst snd] in *. now subst.
Qed.

Lemma run_fsm_unpacked b tr : wf b ->
  fsm_view_of (fst (run_fsm b tr)) = fst (run_unpacked (fsm_view_of b) tr) /\
  snd (run_fsm b tr) = concat (snd (run_unpacked (fsm_view_of b) tr)).
Proof.
  revert b. induction tr as [|[l m] tr IH]; intros b Hwf;
    cbn [run_fsm run_unpacked fst snd]; auto.
  destruct (fsm_unpacked_ok b l m Hwf) as [Hf He].
  pose proof (fsm_wf b l m Hwf) as Hwf2.
  destruct (_fsm b l m) as [b2 e1]. cbn [fst snd] in *.
  destruct (IH b2 Hwf2) as [IHf IHe].
  destruct (fsm_unpacked (fsm_view_of b) l m) as [v1 e1'].
  cbn [fst snd] in *. subst v1 e1'.
  destruct (run_fsm b2 tr) as [b3 e2]. cbn [fst snd] in *.
  destruct (run_unpacked (fsm_view_of b2) tr) as [v3 e3].
  cbn [fst snd concat] in *. now subst.
Qed.

(** The levels the filter lets through do not depend on what the state
    machine does with them: they are those of [_debounce] run on its own. *)
Lemma debounce_level_view b b' lvl ms : wf b -> wf b' ->
  debounce_view_of b = debounce_view_of b' ->
  snd (_debounce b lvl ms) = snd (_debounce b' lvl ms) /\
  debounce_view_of (fst (_debounce b lvl ms)) =
  debounce_view_of (fst (_debounce b' lvl ms)).
Proof.
  intros Hwf Hwf' Hv.
  rewrite !debounce_returns.
  pose proof (debounce_unpacked_ok b lvl ms Hwf) as H1.
  pose proof (debounce_unpacked_ok b' lvl ms Hwf') as H2.
  rewrite Hv, <- H2 in H1. split; [|exact H1].
  now apply (f_equal d_stable) in H1.
Qed.

Lemma stable_trace_debounce b b' tr : wf b -> wf b' ->
  debounce_view_of b = debounce_view_of b' ->
  map fst (stable_trace b tr) =
  snd (run_debounce b' (map (fun s => (s_level s, s_millis_debounce s)) tr)).
Proof.
  revert b b'. induction tr as [|s tr IH]; intros b b' Hwf Hwf' Hv;
    cbn [stable_trace run_debounce map]; auto.
  destruct (debounce_level_view b b' (s_level s) (s_millis_debounce s) Hwf Hwf' Hv)
    as [Hl Hd].
  pose proof (debounce_wf b (s_level s) (s_millis_debounce s) Hwf) as Hw1.
  pose proof (debounce_wf b' (s_level s) (s_millis_debounce s) Hwf') as Hw1'.
  destruct (_debounce b (s_level s) (s_millis_debounce s)) as [b1 st].
  destruct (_debounce b' (s_level s) (s_millis_debounce s)) as [b1' st'].
  cbn [fst snd] in *. subst st'.
  assert (IH' := IH (fst (_fsm b1 st (s_millis_fsm s))) b1'
                   (fsm_wf b1 st (s_millis_fsm s) Hw1) Hw1').
  rewrite fsm_debounce_view in IH' by assumption. specialize (IH' Hd).
  destruct (run_debounce b1' _). cbn [map fst snd] in *. now rewrite IH'.
Qed.

(** ** The unpacked machine on stretches of a trace *)

Lemma run_unpacked_nil v : run_unpacked v [] = (v, []).
Proof. reflexivity. Qed.

Lemma prepend_prepend l1 l2 r : prepend l1 (prepend l2 r) = prepend (l1 ++ l2) r.
Proof. unfold prepend. cbn [fst snd]. now rewrite app_assoc. Qed.

Lemma run_step v l m rest v' ev :
  fsm_unpacked v l m = (v', ev) ->
  run_unpacked v ((l, m) :: rest) = prepend [ev] (run_unpacked v' rest).
Proof.
  intros H. cbn [run_unpacked]. rewrite H. unfold prepend.
  now destruct (run_unpacked v' rest).
Qed.

(** A stretch on which every call leaves the machine where it is. *)
Lemma run_stutter v seg rest :
  Forall (fun s => fsm_unpacked v (fst s) (snd s) = (v, [])) seg ->
  run_unpacked v (seg ++ rest) = prepend (silent seg) (run_unpacked v rest).
Proof.
  induction 1 as [|[l m] seg Hx _ IH]; cbn [app silent map].
  - unfold prepend. now destruct (run_unpacked v rest).
  - cbn [fst snd] in Hx. rewrite (run_step _ _ _ _ _ _ Hx), IH.
    now rewrite prepend_prepend.
Qed.

Lemma concat_silent {A} (l : list A) : concat (silent l) = [].
Proof. induction l; cbn; auto. Qed.

Lemma silent_app {A} (l1 l2 : list A) : silent (l1 ++ l2) = silent l1 ++ silent l2.
Proof. apply map_app. Qed.

Lemma forallb_Forall {A} (p : A -> bool) (P : A -> Prop) l :
  (forall x, p x = true -> P x) -> forallb p l = true -> Forall P l.
Proof.
  intros Hp H. apply Forall_forall. intros x Hx.
  rewrite forallb_forall in H. auto.
Qed.

Section Stutter.
Variable v : fsm_view.

Lemma idle_stutter seg : v_state v = OCS_INIT -> inactive seg = true ->
  Forall (fun s => fsm_unpacked v (fst s) (snd s) = (v, [])) seg.
Proof.
  intros Hs. apply forallb_Forall. intros [l m] Hl. cbn [fst snd] in *.
  unfold fsm_unpacked. rewrite Hs. cbn [Z.eqb OCS_INIT].
  now destruct l.
Qed.

Lemma down_stutter seg : v_state v = OCS_DOWN ->
  held_below (v_press_ms v) (v_start v) seg = true ->
  Forall (fun s => fsm_unpacked v (fst s) (snd s) = (v, [])) seg.
Proof.
  intros Hs. apply forallb_Forall. intros [l m] Hl. cbn [fst snd] in *.
  apply andb_prop in Hl as [-> Hle].
  unfold fsm_unpacked. rewrite Hs. cbn [Z.eqb OCS_INIT OCS_DOWN Pos.eqb negb].
  destruct (Z.gtb_spec (_elapsed (_now m) (v_start v)) (v_press_ms v)); auto.
  apply Z.leb_le in Hle. lia.
Qed.

Lemma count_stutter seg : v_state v = OCS_COUNT -> v_clicks v < 2 ->
  waiting_below (v_click_ms v) (v_start v) seg = true ->
  Forall (fun s => fsm_unpacked v (fst s) (snd s) = (v, [])) seg.
Proof.
  intros Hs Hc. apply forallb_Forall. intros [l m] Hl. cbn [fst snd] in *.
  apply andb_prop in Hl as [Hl Hlt]. destruct l; [discriminate|].
  unfold fsm_unpacked. rewrite Hs.
  cbn [Z.eqb OCS_INIT OCS_DOWN OCS_UP OCS_COUNT Pos.eqb negb].
  apply Z.ltb_lt in Hlt.
  destruct (Z.geb_spec (_elapsed (_now m) (v_start v)) (v_click_ms v)); [lia|].
  destruct (Z.geb_spec (v_clicks v) 2); [lia|]. reflexivity.
Qed.

Lemma press_stutter seg : v_state v = OCS_PRESS -> active seg = true ->
  Forall (fun s => fsm_unpacked v (fst s) (snd s) = (v, [])) seg.
Proof.
  intros Hs. apply forallb_Forall. intros [l m] Hl. cbn [fst snd] in *.
  subst l. unfold fsm_unpacked. rewrite Hs. reflexivity.
Qed.
End Stutter.

(** *** The transitions, one by one *)

Section Transitions.
Variables cm pm : Z.
Variables f g h : callbackFunction.

Local Abbreviation V s c t := (mkView s c t cm pm f g h).

Lemma tr_press c t m :
  fsm_unpacked (V OCS_INIT c t) true m = (V OCS_DOWN 0 (_now m), []).
Proof. reflexivity. Qed.

Lemma tr_release c t m :
  fsm_unpacked (V OCS_DOWN c t) false m = (V OCS_UP c (_now m), []).
Proof. reflexivity. Qed.

Lemma tr_long c t m : pm < _elapsed (_now m) t ->
  fsm_unpacked (V OCS_DOWN c t) true m =
  (V OCS_PRESS c t, call EvLongPressStart h).
Proof.
  intros H. unfold fsm_unpacked.
  cbn [v_state v_start v_press_ms OCS_INIT OCS_DOWN Z.eqb Pos.eqb negb].
  destruct (Z.gtb_spec (_elapsed (_now m) t) pm); [reflexivity | lia].
Qed.

Lemma tr_count c t l m :
  fsm_unpacked (V OCS_UP c t) l m = (V OCS_COUNT ((c + 1) mod 4) t, []).
Proof. reflexivity. Qed.

Lemma tr_again c t m :
  fsm_unpacked (V OCS_COUNT c t) true m = (V OCS_DOWN c (_now m), []).
Proof. reflexivity. Qed.

Lemma tr_timeout c t m : cm <= _elapsed (_now m) t \/ 2 <= c ->
  fsm_unpacked (V OCS_COUNT c t) false m = (V OCS_INIT 0 0, report c f g).
Proof.
  intros H. unfold fsm_unpacked.
  cbn [v_state v_start v_clicks v_click_ms OCS_INIT OCS_DOWN OCS_UP OCS_COUNT
       Z.eqb Pos.eqb negb].
  replace ((_elapsed (_now m) t >=? cm) || (c >=? 2)) with true; [reflexivity|].
  symmetry. apply orb_true_iff.
  destruct H; [left | right]; apply Z.geb_le; lia.
Qed.

Lemma tr_long_release c t m :
  fsm_unpacked (V OCS_PRESS c t) false m = (V OCS_PRESSEND c (_now m), []).
Proof. reflexivity. Qed.

Lemma tr_pressend c t l m :
  fsm_unpacked (V OCS_PRESSEND c t) l m = (V OCS_INIT 0 0, []).
Proof. reflexivity. Qed.

Lemma tr_corrupt s c t l m : s = 6 \/ s = 7 ->
  fsm_unpacked (V s c t) l m = (V OCS_INIT 0 0, []).
Proof. intros [-> | ->]; reflexivity. Qed.

(** *** Stretches *)

Lemma run_idle c t seg rest : inactive seg = true ->
  run_unpacked (V OCS_INIT c t) (seg ++ rest) =
  prepend (silent seg) (run_unpacked (V OCS_INIT c t) rest).
Proof. intros. apply run_stutter. now apply idle_stutter. Qed.

Lemma run_held c t seg rest : held_below pm t seg = true ->
  run_unpacked (V OCS_DOWN c t) (seg ++ rest) =
  prepend (silent seg) (run_unpacked (V OCS_DOWN c t) rest).
Proof. intros. apply run_stutter. now apply down_stutter. Qed.

Lemma run_waiting c t seg rest : c < 2 -> waiting_below cm t seg = true ->
  run_unpacked (V OCS_COUNT c t) (seg ++ rest) =
  prepend (silent seg) (run_unpacked (V OCS_COUNT c t) rest).
Proof. intros. apply run_stutter. now apply count_stutter. Qed.

Lemma run_long_held c t seg rest : active seg = true ->
  run_unpacked (V OCS_PRESS c t) (seg ++ rest) =
  prepend (silent seg) (run_unpacked (V OCS_PRESS c t) rest).
Proof. intros. apply run_stutter. now apply press_stutter. Qed.

(** One press-release cycle that is not held too long, seen from the
    idle or from the counting state. *)
Lemma run_cycle_from_idle c t p hold r u rest :
  held_below pm (_now p) hold = true ->
  run_unpacked (V OCS_INIT c t) (cycle p hold r u ++ rest) =
  prepend (silent (cycle p hold r u))
          (run_unpacked (V OCS_COUNT 1 (_now r)) rest).
Proof.
  intros Hh. destruct u as [ul um]. unfold cycle. cbn [app].
  rewrite (run_step _ _ _ _ _ _ (tr_press c t p)).
  rewrite <- app_assoc, (run_held _ _ _ _ Hh). cbn [app].
  rewrite (run_step _ _ _ _ _ _ (tr_release 0 (_now p) r)).
  rewrite (run_step _ _ _ _ _ _ (tr_count 0 (_now r) ul um)).
  rewrite !prepend_prepend. f_equal.
  unfold silent. cbn [map app]. rewrite map_app, <- !app_assoc. reflexivity.
Qed.

Lemma run_cycle_from_count c t p hold r u rest :
  held_below pm (_now p) hold = true ->
  run_unpacked (V OCS_COUNT c t) (cycle p hold r u ++ rest) =
  prepend (silent (cycle p hold r u))
          (run_unpacked (V OCS_COUNT ((c + 1) mod 4) (_now r)) rest).
Proof.
  intros Hh. destruct u as [ul um]. unfold cycle. cbn [app].
  rewrite (run_step _ _ _ _ _ _ (tr_again c t p)).
  rewrite <- app_assoc, (run_held _ _ _ _ Hh). cbn [app].
  rewrite (run_step _ _ _ _ _ _ (tr_release c (_now p) r)).
  rewrite (run_step _ _ _ _ _ _ (tr_count c (_now r) ul um)).
  rewrite !prepend_prepend. f_equal.
  unfold silent. cbn [map app]. rewrite map_app, <- !app_assoc. reflexivity.
Qed.

End Transitions.

(** * The claims *)

(** ** Elapsed time *)

Lemma now_true_time (T : Z) : _now (uint32 T) = uint16 (T / 4).
Proof.
  unfold _now, uint32, uint16. rewrite Z.shiftr_div_pow2 by lia.
  change (2 ^ 2) with 4.
  rewrite (Z.mod_eq T 4294967296) by lia.
  replace (T - 4294967296 * (T / 4294967296))
    with (T + (- 1073741824 * (T / 4294967296)) * 4) by lia.
  rewrite Z.div_add by lia.
  replace (-1073741824 * (T / 4294967296))
    with ((- 16384 * (T / 4294967296)) * 65536) by lia.
  now rewrite Z.mod_add by lia.
Qed.

Lemma uint16_small z : 0 <= z < 65536 -> uint16 z = z.
Proof. intros. unfold uint16. now apply Z.mod_small. Qed.

Lemma uint16_sub a b : uint16 (uint16 a - uint16 b) = uint16 (a - b).
Proof. unfold uint16. now rewrite <- Zminus_mod. Qed.

Lemma quarter_diff_bounds T0 T1 :
  T1 - T0 - 3 <= 4 * (T1 / 4 - T0 / 4) <= T1 - T0 + 3.
Proof.
  pose proof (Z.div_mod T0 4 ltac:(lia)).
  pose proof (Z.div_mod T1 4 ltac:(lia)).
  pose proof (Z.mod_pos_bound T0 4 ltac:(lia)).
  pose proof (Z.mod_pos_bound T1 4 ltac:(lia)).
  lia.
Qed.

Lemma quarter_mono T0 T1 : T0 <= T1 -> T0 / 4 <= T1 / 4.
Proof. intros. apply Z.div_le_mono; lia. Qed.

(** The difference [_debounce] compares with the settle time. *)
Lemma debounce_diff_true_time T0 T1 :
  uint16 (_now (uint32 T1) - _now (uint32 T0)) = uint16 (T1 / 4 - T0 / 4).
Proof. now rewrite !now_true_time, uint16_sub. Qed.

(** The wait [_fsm] compares with its thresholds. *)
Lemma elapsed_true_time T0 T1 :
  _elapsed (_now (uint32 T1)) (_now (uint32 T0)) = uint16 (4 * (T1 / 4 - T0 / 4)).
Proof.
  unfold _elapsed. rewrite !now_true_time, Z.shiftl_mul_pow2 by lia.
  change (2 ^ 2) with 4. unfold uint16.
  rewrite <- Z.mul_mod_idemp_l, <- Zminus_mod, Z.mul_mod_idemp_l by lia.
  f_equal. lia.
Qed.

(** True time against measured time, for the thresholds of [_fsm]: the
    measured wait never exceeds the true one by more than 3 ms, and within
    65 seconds it is never more than 3 ms short of it. *)
Lemma measured_le_true T0 T1 : T0 <= T1 ->
  _elapsed (_now (uint32 T1)) (_now (uint32 T0)) <= T1 - T0 + 3.
Proof.
  intros Hle. rewrite elapsed_true_time.
  pose proof (quarter_diff_bounds T0 T1). pose proof (quarter_mono T0 T1 Hle).
  assert (uint16 (4 * (T1 / 4 - T0 / 4)) <= 4 * (T1 / 4 - T0 / 4))
    by (unfold uint16; apply Z.mod_le; lia).
  lia.
Qed.

Lemma measured_ge_true T0 T1 : T0 <= T1 -> T1 - T0 <= 65532 ->
  T1 - T0 - 3 <= _elapsed (_now (uint32 T1)) (_now (uint32 T0)).
Proof.
  intros Hle Hs. rewrite elapsed_true_time.
  pose proof (quarter_diff_bounds T0 T1). pose proof (quarter_mono T0 T1 Hle).
  rewrite uint16_small by lia. lia.
Qed.

(** C6, as stated, fails: the clock is read in units of 4 ms, so the wait
    computed from two readings is not the true time between them.  Readings
    taken at 0 ms and 3 ms give a wait of 0, which is not positive; readings
    taken at 3 ms and 4 ms, one millisecond apart, give 4 ms; and so do
    readings taken 3 ms apart on either side of the wrap of [millis()], at
    2^32 - 1 and 2^32 + 2. *)
Lemma elapsed_is_not_the_true_duration :
  _elapsed (_now (uint32 3)) (_now (uint32 0)) = 0 /\
  _elapsed (_now (uint32 4)) (_now (uint32 3)) = 4 /\
  _elapsed (_now (uint32 4294967298)) (_now (uint32 4294967295)) = 4 /\
  _now (uint32 4294967295) = 65535 /\ _now (uint32 4294967298) = 0.
Proof. repeat split; reflexivity. Qed.

(** C6, amended.  Two readings of the clock taken at the true times
    [T0 <= T1] (milliseconds since start-up, of any size: [millis()] has
    wrapped at 2^32 and [_now()] at 2^16 as often as it takes) not more than
    65532 ms apart.  The wait [_fsm] computes from them is the distance of
    the two readings of the 4 ms clock, in milliseconds: a multiple of 4
    within 3 ms of [T1 - T0], positive as soon as the two readings differ;
    the difference [_debounce] computes is that distance in clock units. *)
Theorem elapsed_wraparound_safe (T0 T1 : Z) :
  T0 <= T1 -> T1 - T0 <= 65532 ->
  _elapsed (_now (uint32 T1)) (_now (uint32 T0)) = 4 * (T1 / 4 - T0 / 4) /\
  uint16 (_now (uint32 T1) - _now (uint32 T0)) = T1 / 4 - T0 / 4 /\
  T1 - T0 - 3 <= _elapsed (_now (uint32 T1)) (_now (uint32 T0)) <= T1 - T0 + 3 /\
  (T0 / 4 < T1 / 4 -> 0 < _elapsed (_now (uint32 T1)) (_now (uint32 T0))).
Proof.
  intros Hle Hsmall.
  pose proof (quarter_diff_bounds T0 T1) as Hq.
  pose proof (quarter_mono T0 T1 Hle) as Hm.
  rewrite elapsed_true_time, debounce_diff_true_time.
  rewrite !uint16_small by lia. repeat split; lia.
Qed.

(** A start shortly before [millis()] wraps, a second reading after it. *)
Lemma elapsed_wraparound_safe_witness :
  _elapsed (_now (uint32 4294967306)) (_now (uint32 4294967290)) = 16 /\
  _now (uint32 4294967306) = 2 /\ _now (uint32 4294967290) = 65534.
Proof.
  destruct (elapsed_wraparound_safe 4294967290 4294967306) as [H _]; [lia | lia |].
  split; [rewrite H; reflexivity | split; reflexivity].
Defined.

(** ** One call of the state machine *)

(** C7.  One call of [_fsm], and hence one tick of either overload, calls at
    most one callback, whatever the object, the level and the clock. *)
Theorem fsm_at_most_one_callback (b : OneButtonTiny) (level : bool) (m1 m2 : Z) :
  (length (snd (_fsm b level m2)) <= 1)%nat /\
  (length (snd (tick_level b level m1 m2)) <= 1)%nat /\
  (length (snd (tick b level m1 m2)) <= 1)%nat.
Proof.
  assert (H : forall b l m, (length (snd (_fsm b l m)) <= 1)%nat).
  { clear. intros b l m. unfold _fsm, call.
    repeat match goal with
      | |- context [if ?c then _ else _] => destruct c
      | |- context [match ?c with Some _ => _ | None => _ end] => destruct c
      end; cbn; lia. }
  split; [apply H|]. unfold tick. split; rewrite tick_level_eq; apply H.
Qed.

(** C8.  When the three state bits hold a code outside the enumeration, a
    call of [_fsm], and hence a tick, does what [reset()] does and nothing
    else: no callback is called and the object is idle afterwards. *)
Theorem corrupt_state_resets (b : OneButtonTiny) (level : bool) (m1 m2 : Z) :
  wf b -> ~ In (_getState b) defined_states ->
  _fsm b level m2 = (reset b, []) /\
  tick_level b level m1 m2 = (reset (fst (_debounce b level m1)), []) /\
  _getState (reset b) = OCS_INIT /\ _getClicks (reset b) = 0 /\
  isIdle (reset b) = true.
Proof.
  intros Hwf Hout.
  assert (Hfsm : forall b l m, wf b -> ~ In (_getState b) defined_states ->
                               _fsm b l m = (reset b, [])).
  { clear. intros b l m Hwf Hout.
    assert (Hr : with_state (reset b) (_getState (reset b)) = reset b).
    { pose proof (reset_view b Hwf) as Hv.
      apply (f_equal v_state) in Hv. cbn [fsm_view_of v_state v_goto] in Hv.
      rewrite Hv. reflexivity. }
    unfold _fsm.
    destruct (getState_cases b) as [H|[H|[H|[H|[H|[H|[H|H]]]]]]];
      try (exfalso; apply Hout; rewrite H; unfold defined_states; cbn; tauto);
      rewrite H; cbn [Z.eqb OCS_INIT OCS_DOWN OCS_UP OCS_COUNT OCS_PRESS
                      OCS_PRESSEND Pos.eqb]; now rewrite Hr. }
  pose proof (reset_view b Hwf) as Hv.
  repeat split.
  - now apply Hfsm.
  - rewrite tick_level_eq. apply Hfsm; [now apply debounce_wf|].
    pose proof (debounce_fsm_view b level m1 Hwf) as Hd.
    apply (f_equal v_state) in Hd. cbn [fsm_view_of v_state] in Hd.
    now rewrite Hd.
  - now apply (f_equal v_state) in Hv.
  - now apply (f_equal v_clicks) in Hv.
Qed.

(** The spare code 6 in the state bits. *)
Lemma corrupt_state_resets_witness :
  let b := with_flags default_button 24 in
  _getState b = 6 /\ _fsm b true 1000 = (reset b, []).
Proof.
  split; [reflexivity|].
  apply (corrupt_state_resets (with_flags default_button 24) true 1000 1000).
  - unfold wf; cbn; lia.
  - cbv; intuition congruence.
Defined.

(** ** [reset()] and [isIdle()] *)

(** C3, as stated, fails: after two ticks with the button pressed the filter
    has recorded the level, its time stamp (100 ms, that is 25 clock units)
    and the stable level; [reset()] leaves all three as they are, while a
    freshly constructed object has them cleared. *)
Lemma reset_keeps_debounce_state :
  let b := fst (run_ticks default_button [at_ms 100 true; at_ms 200 true]) in
  (_getLastLevel (reset b), _lastDebounceTime (reset b),
   _getDebouncedLevel (reset b)) = (true, 25, true) /\
  (_getLastLevel default_button, _lastDebounceTime default_button,
   _getDebouncedLevel default_button) = (false, 0, false).
Proof. split; reflexivity. Qed.

(** C3, amended.  [reset()] puts the state machine back to what the
    constructor made it (state [OCS_INIT], no clicks, start time 0, the
    legacy copy of the state included), so that [isIdle()] holds, and leaves
    the debounce filter (last level, its time stamp, stable level) and the
    configuration untouched. *)
Theorem reset_restores_fsm_only (b : OneButtonTiny) :
  wf b ->
  _getState (reset b) = OCS_INIT /\ _getClicks (reset b) = 0 /\
  _startTime (reset b) = 0 /\ _state (reset b) = OCS_INIT /\
  isIdle (reset b) = true /\
  _getLastLevel (reset b) = _getLastLevel b /\
  _lastDebounceTime (reset b) = _lastDebounceTime b /\
  _getDebouncedLevel (reset b) = _getDebouncedLevel b /\
  same_config b (reset b).
Proof.
  intros Hwf.
  pose proof (reset_view b Hwf) as Hv.
  pose proof (reset_debounce_view b Hwf) as Hd.
  pose proof (reset_same_config b Hwf) as Hc.
  apply (f_equal v_state) in Hv as Hs. apply (f_equal v_clicks) in Hv as Hk.
  apply (f_equal d_last) in Hd as Hl. apply (f_equal d_stable) in Hd as Ht.
  cbn [fsm_view_of debounce_view_of v_state v_clicks v_goto d_last d_stable]
    in Hs, Hk, Hl, Ht.
  repeat split; try solve [assumption | reflexivity | apply Hc].
Qed.

(** [reset()] in the middle of a long press. *)
Lemma reset_restores_fsm_only_witness :
  let b := fst (run_ticks default_button (every_ms true 0 1000)) in
  _getState b = OCS_PRESS /\ _getState (reset b) = OCS_INIT /\
  isIdle (reset b) = true.
Proof.
  split; [vm_compute; reflexivity|].
  destruct (reset_restores_fsm_only
              (fst (run_ticks default_button (every_ms true 0 1000))))
    as (H1 & _ & _ & _ & H5 & _).
  - apply run_ticks_wf. unfold wf. cbn. lia.
  - split; [exact H1 | exact H5].
Defined.

Lemma reachable_in_sync b : reachable b -> wf b /\ _state b = _getState b.
Proof.
  induction 1 as [pin al pu | b ms _ IH | b ms _ IH | b ms _ IH | b f _ IH
                 | b f _ IH | b f _ IH | b _ IH | b raw m1 m2 _ IH
                 | b lvl m1 m2 _ IH]; try exact IH.
  - split; [apply wf_new | now destruct al].
  - destruct IH as [Hwf _]. split; [apply wf_reset|].
    pose proof (reset_view b Hwf) as Hv.
    apply (f_equal v_state) in Hv. cbn [fsm_view_of v_state v_goto] in Hv.
    now rewrite Hv.
  - destruct IH as [Hwf _]. unfold tick.
    split; [now apply tick_level_wf|]. rewrite tick_level_eq. apply fsm_legacy.
  - destruct IH as [Hwf _].
    split; [now apply tick_level_wf|]. rewrite tick_level_eq. apply fsm_legacy.
Qed.

(** C9.  On every object the public interface can produce, the legacy
    member [_state] that [isIdle()] consults equals the state packed in
    [_flags], so [isIdle()] holds exactly when the state machine is in
    [OCS_INIT]. *)
Theorem isIdle_iff_state_idle (b : OneButtonTiny) :
  reachable b ->
  _state b = _getState b /\ (isIdle b = true <-> state b = OCS_INIT).
Proof.
  intros Hr. destruct (reachable_in_sync b Hr) as [_ Hs].
  split; [exact Hs|]. unfold isIdle, state. rewrite Hs. apply Z.eqb_eq.
Qed.

(** A fresh button after one tick that sees it pressed is not idle. *)
Lemma isIdle_iff_state_idle_witness :
  let b := fst (tick_level (setDebounceMs (OneButtonTiny_new 2 true true) 0)
                           true 100 100) in
  let b' := fst (tick_level b true 104 104) in
  isIdle b = true /\ isIdle b' = false /\ _state b' = _getState b'.
Proof.
  split; [reflexivity|]. split; [reflexivity|].
  apply (isIdle_iff_state_idle
           (fst (tick_level
                   (fst (tick_level (setDebounceMs (OneButtonTiny_new 2 true true) 0)
                                    true 100 100)) true 104 104))).
  apply reach_tick_level, reach_tick_level, reach_setDebounceMs, reach_new.
Defined.

(** ** The debounce filter over a trace *)

Lemma run_start_acc level hist acc t0 :
  run_start level hist None = Some t0 -> run_start level hist acc = Some t0.
Proof.
  destruct hist as [|x older]; cbn [run_start]; [discriminate|].
  destruct (Bool.eqb (t_level x) level); [auto | discriminate].
Qed.

Lemma run_start_in level hist t0 :
  run_start level hist None = Some t0 ->
  exists x, In x hist /\ t_debounce x = t0.
Proof.
  assert (H : forall acc, run_start level hist acc = Some t0 ->
                          acc = Some t0 \/ exists x, In x hist /\ t_debounce x = t0).
  { induction hist as [|x older IH]; intros acc; cbn [run_start]; auto.
    destruct (Bool.eqb (t_level x) level); auto.
    intros Hr. destruct (IH _ Hr) as [He | (y & Hy & Ht)].
    - injection He as He. right. exists x. split; [now left | assumption].
    - right. exists y. split; [now right | assumption]. }
  intros Hr. destruct (H None Hr) as [He | Hx]; [discriminate | exact Hx].
Qed.

Lemma filter_inv_step d hist s :
  filter_inv d hist ->
  filter_inv (debounce_unpacked d (t_level s) (uint32 (t_debounce s))) (s :: hist).
Proof.
  intros [Hlast Hrun]. unfold debounce_unpacked.
  destruct (Bool.eqb (d_last d) (t_level s)) eqn:E.
  - apply Bool.eqb_prop in E.
    destruct (_ >=? _); split; cbn [d_last d_stable d_changedAt]; auto.
    destruct Hrun as [Hs | (t0 & Ht0 & Hc)]; [now left | right].
    exists t0. split; [|assumption]. cbn [run_start].
    rewrite E, Bool.eqb_reflx. rewrite <- E. now apply run_start_acc.
  - split; cbn [d_last d_stable d_changedAt]; auto.
    right. exists (t_debounce s). split; [|reflexivity].
    cbn [run_start]. rewrite Bool.eqb_reflx.
    destruct hist as [|x older]; cbn [run_start]; [reflexivity|].
    rewrite <- Hlast, E. reflexivity.
Qed.

Lemma debounce_unpacked_ms d level m :
  d_debounce_ms (debounce_unpacked d level m) = d_debounce_ms d.
Proof.
  unfold debounce_unpacked.
  destruct (Bool.eqb _ _); [destruct (_ >=? _)|]; reflexivity.
Qed.

Lemma run_ticks_snoc b tr s :
  fst (run_ticks b (tr ++ [s])) = fst (tick_sample (fst (run_ticks b tr)) s).
Proof.
  rewrite run_ticks_app. cbn [fst run_ticks].
  destruct (tick_sample (fst (run_ticks b tr)) s). reflexivity.
Qed.

Lemma filter_inv_run b0 pre :
  wf b0 -> _getLastLevel b0 = _getDebouncedLevel b0 ->
  let b := fst (run_ticks b0 (map sample_at pre)) in
  filter_inv (debounce_view_of b) (rev pre) /\ _debounce_ms b = _debounce_ms b0.
Proof.
  intros Hwf H0. induction pre as [|s pre IH] using rev_ind.
  - cbn. split; [split; auto|reflexivity].
  - cbn zeta in *. destruct IH as [IH Hms].
    rewrite map_app, rev_app_distr. cbn [map rev app].
    rewrite run_ticks_snoc. unfold tick_sample.
    cbn [sample_at s_level s_millis_debounce s_millis_fsm].
    pose proof (run_ticks_wf b0 (map sample_at pre) Hwf) as Hwf1.
    pose proof (tick_level_debounce_view _ (t_level s) (uint32 (t_debounce s))
                  (uint32 (t_fsm s)) Hwf1) as Hv.
    rewrite Hv. split; [now apply filter_inv_step|].
    apply (f_equal d_debounce_ms) in Hv. rewrite debounce_unpacked_ms in Hv.
    cbn [debounce_view_of d_debounce_ms] in Hv. congruence.
Qed.

(** C1, as stated, fails: with the settle time at its default of 50 ms the
    level is seen released at 0 ms, pressed at 3 ms and pressed at 48 ms, and
    the third tick already changes the stable level, 45 ms after the press
    was first seen: the clock has a resolution of 4 ms and the settle time
    is cut to a whole number of clock units, 12 of them. *)
Lemma debounce_accepts_after_45_ms :
  let pre := [mkTimed false 0 0; mkTimed true 3 3] in
  let s := mkTimed true 48 48 in
  let b := fst (run_ticks default_button (map sample_at pre)) in
  let b' := fst (tick_sample b (sample_at s)) in
  _debounce_ms default_button = 50 /\
  _getDebouncedLevel b = false /\ _getDebouncedLevel b' = true /\
  level_since pre (t_level s) = Some 3 /\ held_for 50 pre s = false.
Proof. repeat split; reflexivity. Qed.

(** C1, amended.  Ticks on a clock that does not run backwards, from an
    object whose filter is settled (as the constructor leaves it).  A tick
    whose level differs from the last one seen records that level and the
    clock reading and leaves the stable level alone.  A tick changes the
    stable level only to the level it shows and only when every tick has
    shown that level since one at least [4 * (debounceTime / 4) - 3]
    milliseconds earlier (45 ms for the default of 50 ms), up to 6 ms less
    than [debounceTime]. *)
Theorem debounce_invariant (b0 : OneButtonTiny) (pre : list timed) (s : timed) :
  wf b0 -> 0 <= _debounce_ms b0 < 256 ->
  _getLastLevel b0 = _getDebouncedLevel b0 ->
  not_before pre s ->
  let b := fst (run_ticks b0 (map sample_at pre)) in
  let b' := fst (tick_sample b (sample_at s)) in
  (t_level s <> _getLastLevel b ->
   _getLastLevel b' = t_level s /\
   _lastDebounceTime b' = _now (uint32 (t_debounce s)) /\
   _getDebouncedLevel b' = _getDebouncedLevel b) /\
  (_getDebouncedLevel b' <> _getDebouncedLevel b ->
   _getDebouncedLevel b' = t_level s /\
   held_for (4 * (_debounce_ms b0 / 4) - 3) pre s = true /\
   _debounce_ms b0 - 6 <= 4 * (_debounce_ms b0 / 4) - 3).
Proof.
  intros Hwf Hms H0 Hmono b b'.
  destruct (filter_inv_run b0 pre Hwf H0) as [[Hlast Hrun] Hd]. fold b in Hlast, Hrun, Hd.
  pose proof (run_ticks_wf b0 (map sample_at pre) Hwf) as Hwf1. fold b in Hwf1.
  pose proof (tick_level_debounce_view b (t_level s) (uint32 (t_debounce s))
                (uint32 (t_fsm s)) Hwf1) as Hv.
  change (tick_level b (t_level s) (uint32 (t_debounce s)) (uint32 (t_fsm s)))
    with (tick_sample b (sample_at s)) in Hv. fold b' in Hv.
  apply (f_equal d_last) in Hv as Hl. apply (f_equal d_stable) in Hv as Hs.
  apply (f_equal d_changedAt) in Hv as Hc.
  cbn [debounce_view_of d_last d_stable d_changedAt] in Hl, Hs, Hc, Hrun.
  clear Hv. unfold debounce_unpacked in Hl, Hs, Hc.
  cbn [debounce_view_of d_last d_stable d_changedAt d_debounce_ms] in Hl, Hs, Hc.
  rewrite Hd in Hl, Hs, Hc.
  destruct (Bool.eqb (_getLastLevel b) (t_level s)) eqn:E.
  - apply Bool.eqb_prop in E. split; [intros Hne; exfalso; apply Hne; symmetry; exact E|].
    destruct (Z.geb_spec (uint16 (_now (uint32 (t_debounce s)) - _lastDebounceTime b))
                         (uint8 (Z.shiftr (_debounce_ms b0) 2))) as [Hge|Hlt];
      cbn [d_stable debounce_view_of] in Hs;
      [|intros Hchg; exfalso; apply Hchg; exact Hs].
    intros Hchg. split; [assumption|].
    destruct Hrun as [Hst | (t0 & Ht0 & Hat)]; [congruence|].
    assert (Hq : Z.shiftr (_debounce_ms b0) 2 = _debounce_ms b0 / 4)
      by (now rewrite Z.shiftr_div_pow2 by lia).
    assert (Hq8 : uint8 (_debounce_ms b0 / 4) = _debounce_ms b0 / 4).
    { unfold uint8. apply Z.mod_small.
      pose proof (Z.div_pos (_debounce_ms b0) 4 ltac:(lia) ltac:(lia)).
      assert (_debounce_ms b0 / 4 < 64) by (apply Z.div_lt_upper_bound; lia).
      lia. }
    rewrite Hq, Hq8, Hat, debounce_diff_true_time in Hge.
    destruct (run_start_in _ _ _ Ht0) as (x & Hx & Hxt).
    assert (Hle : t0 <= t_debounce s).
    { unfold not_before in Hmono. rewrite Forall_forall in Hmono.
      rewrite <- Hxt. apply Hmono. now apply in_rev. }
    pose proof (quarter_mono _ _ Hle) as Hm.
    assert (Hu : uint16 (t_debounce s / 4 - t0 / 4) <= t_debounce s / 4 - t0 / 4).
    { unfold uint16. apply Z.mod_le; lia. }
    pose proof (quarter_diff_bounds t0 (t_debounce s)) as Hb.
    pose proof (Z.div_mod (_debounce_ms b0) 4 ltac:(lia)) as Hdm.
    pose proof (Z.mod_pos_bound (_debounce_ms b0) 4 ltac:(lia)) as Hdb.
    split; [|lia].
    unfold held_for, level_since. rewrite <- E, Ht0. apply Z.leb_le. lia.
  - apply Bool.eqb_false_iff in E. cbn [d_last d_stable d_changedAt] in Hl, Hs, Hc.
    split; [intros _; auto | congruence].
Qed.

(** A press seen at 3 ms that is still there at 51 ms. *)
Lemma debounce_invariant_witness :
  let pre := [mkTimed false 0 0; mkTimed true 3 3; mkTimed true 20 20] in
  let s := mkTimed true 51 51 in
  let b := fst (run_ticks default_button (map sample_at pre)) in
  let b' := fst (tick_sample b (sample_at s)) in
  _getDebouncedLevel b = false /\ _getDebouncedLevel b' = true /\
  held_for 45 pre s = true.
Proof.
  split; [reflexivity|]. split; [reflexivity|].
  refine (proj1 (proj2 (proj2 (debounce_invariant default_button
           [mkTimed false 0 0; mkTimed true 3 3; mkTimed true 20 20]
           (mkTimed true 51 51) _ _ _ _) _))).
  - unfold wf. cbn. lia.
  - cbn. lia.
  - reflexivity.
  - unfold not_before. repeat constructor; cbn; lia.
  - vm_compute. discriminate.
Defined.

(** ** Gestures *)

(** From the unpacked machine on the stable levels back to the ticks. *)
Lemma lift_log b tr shape v' log :
  wf b -> stable_trace b tr = shape ->
  run_unpacked (fsm_view_of b) shape = (v', log) ->
  tick_log b tr = log /\ snd (run_ticks b tr) = concat log /\
  fsm_view_of (fst (run_ticks b tr)) = v'.
Proof.
  intros Hwf Hs Hr. destruct (run_ticks_unpacked b tr Hwf) as [Hv Hl].
  rewrite Hs, Hr in Hv, Hl. cbn [fst snd] in Hv, Hl.
  rewrite <- tick_log_events, Hl. auto.
Qed.

Lemma concat_one_event {A B} (l1 : list A) (l2 : list B) (e : list event) :
  concat (silent l1 ++ e :: silent l2) = e.
Proof.
  rewrite concat_app, concat_silent. cbn [concat app].
  now rewrite concat_silent, app_nil_r.
Qed.

Lemma prepend_pair l v log : prepend l (v, log) = (v, l ++ log).
Proof. reflexivity. Qed.

(** After the release of a long press: one tick back to idle, then idle. *)
Lemma run_after_long_press cm pm f g h c t post :
  inactive post = true ->
  run_unpacked (mkView OCS_PRESSEND c t cm pm f g h) post =
  (match post with
   | [] => mkView OCS_PRESSEND c t cm pm f g h
   | _ :: _ => mkView OCS_INIT 0 0 cm pm f g h
   end, silent post).
Proof.
  destruct post as [|[l m] post]; [reflexivity|]. intros Hp.
  cbn [inactive forallb] in Hp. apply andb_prop in Hp as [_ Hp].
  rewrite (run_step _ _ _ _ _ _ (tr_pressend cm pm f g h c t l m)).
  rewrite <- (app_nil_r post), run_idle by exact Hp.
  rewrite run_unpacked_nil, prepend_prepend, prepend_pair, !app_nil_r.
  reflexivity.
Qed.

(** C4, as stated, fails: with the defaults of the header and a tick every
    millisecond, the button is pressed once, from 100 ms to 1100 ms, released
    once and left alone for 600 ms more.  The long-press callback is called
    and the click callback is not.  The same on six calls of [_fsm]: pressed
    at 0, 500 and 1000 ms, released at 1100, 1101 and 1600 ms.  Reading
    "one press" as one no longer than [pressThreshold] does not save the
    claim as it is worded in milliseconds: with the threshold set to 801 ms
    a press seen from 3 ms to 804 ms, 801 ms long, is measured as 804 ms on
    the 4 ms clock and reported as a long press. *)
Lemma one_long_press_is_no_click :
  let tr := every_ms false 0 100 ++ every_ms true 100 1000 ++
            every_ms false 1100 600 in
  snd (run_ticks default_button tr) = [EvLongPressStart 3] /\
  count_events is_click (snd (run_ticks default_button tr)) = 0%nat /\
  snd (run_fsm default_button
         [(true, 0); (true, 500); (true, 1000);
          (false, 1100); (false, 1101); (false, 1600)]) = [EvLongPressStart 3] /\
  snd (run_fsm (setPressMs default_button 801)
         [(true, 3); (true, 400); (true, 804);
          (false, 805); (false, 806); (false, 1300)]) = [EvLongPressStart 3].
Proof. vm_compute. repeat split; reflexivity. Qed.

(** C4, amended.  The levels the filter hands to the state machine, from
    idle: released; one press, held while the time measured since it was
    seen has not passed [pressThreshold]; its release and the tick after it;
    released while the time measured since the release has not reached
    [clickWindow]; a tick at which it has; released from then on.  With a
    click handler attached, that handler is called once, at the tick where
    the window is seen to have expired, nothing else is called, and the
    machine is idle again. *)
Theorem single_click (b : OneButtonTiny) (tr : list sample) (f : nat)
  (idle hold wait post : list (bool * Z)) (p r e : Z) (u : bool * Z) :
  wf b -> _getState b = OCS_INIT -> _clickFunc b = Some f ->
  stable_trace b tr =
    idle ++ cycle p hold r u ++ wait ++ (false, e) :: post ->
  inactive idle = true ->
  held_below (_press_ms b) (_now p) hold = true ->
  waiting_below (_click_ms b) (_now r) wait = true ->
  _click_ms b <= _elapsed (_now e) (_now r) ->
  inactive post = true ->
  tick_log b tr =
    silent (idle ++ cycle p hold r u ++ wait) ++ [EvClick f] :: silent post /\
  snd (run_ticks b tr) = [EvClick f] /\
  count_events is_click (snd (run_ticks b tr)) = 1%nat /\
  count_events is_double_click (snd (run_ticks b tr)) = 0%nat /\
  count_events is_long_press_start (snd (run_ticks b tr)) = 0%nat /\
  _getState (fst (run_ticks b tr)) = OCS_INIT.
Proof.
  intros Hwf Hst Hf Hshape Hidle Hhold Hwait He Hpost.
  assert (Hrun : run_unpacked (fsm_view_of b)
                   (idle ++ cycle p hold r u ++ wait ++ (false, e) :: post) =
                 (mkView OCS_INIT 0 0 (_click_ms b) (_press_ms b) (Some f)
                    (_doubleClickFunc b) (_longPressStartFunc b),
                  silent (idle ++ cycle p hold r u ++ wait) ++
                  [EvClick f] :: silent post)).
  { unfold fsm_view_of. rewrite Hst, Hf.
    rewrite run_idle by exact Hidle.
    rewrite run_cycle_from_idle by exact Hhold.
    rewrite run_waiting by (try exact Hwait; lia).
    rewrite (run_step _ _ _ _ _ _
               (tr_timeout _ _ _ _ _ 1 (_now r) e (or_introl He))).
    rewrite <- (app_nil_r post), run_idle by exact Hpost.
    rewrite run_unpacked_nil, !prepend_prepend, prepend_pair, !app_nil_r.
    rewrite !silent_app, <- !app_assoc. reflexivity. }
  destruct (lift_log b tr _ _ _ Hwf Hshape Hrun) as (Hlog & Hev & Hv).
  rewrite concat_one_event in Hev. rewrite Hev.
  apply (f_equal v_state) in Hv. repeat split; auto.
Qed.

(** The defaults, a tick every millisecond, the button pressed from 100 ms
    to 300 ms. *)
Lemma single_click_witness :
  snd (run_ticks default_button
         (every_ms false 0 100 ++ every_ms true 100 200 ++
          every_ms false 300 600)) = [EvClick 1].
Proof.
  pose (st := fun (l : bool) (from : Z) (n : nat) =>
                map (fun s => (l, s_millis_fsm s)) (every_ms l from n)).
  refine (proj1 (proj2 (single_click default_button
            (every_ms false 0 100 ++ every_ms true 100 200 ++
             every_ms false 300 600) 1
            (st false 0 148%nat) (st true 149 199%nat) (st false 350 398%nat)
            (st false 749 151%nat) 148 348 748 (false, 349)
            _ _ _ _ _ _ _ _ _))).
  - unfold wf. cbn. lia.
  - reflexivity.
  - reflexivity.
  - vm_compute. reflexivity.
  - vm_compute. reflexivity.
  - vm_compute. reflexivity.
  - vm_compute. reflexivity.
  - vm_compute. discriminate.
  - vm_compute. reflexivity.
Defined.

(** C5, as stated, fails: with the defaults of the header and a tick every
    millisecond, the button is held from 100 ms to 907 ms, that is for
    807 ms, more than the 800 ms of [pressThreshold].  The filter shows it
    pressed from 148 ms to 951 ms; on the 4 ms clock the state machine
    measures at most 800 ms of that, which is not more than the threshold.
    No long press is reported, and the release ends in a click.  The same
    on six calls of [_fsm]: pressed at 0, 400 and 801 ms, released at 802,
    803 and 1300 ms. *)
Lemma hold_of_807_ms_is_a_click :
  let tr := every_ms false 0 100 ++ every_ms true 100 807 ++
            every_ms false 907 600 in
  snd (run_ticks default_button tr) = [EvClick 1] /\
  count_events is_long_press_start (snd (run_ticks default_button tr)) = 0%nat /\
  _elapsed (_now 801) (_now 0) = 800 /\
  snd (run_fsm default_button
         [(true, 0); (true, 400); (true, 801);
          (false, 802); (false, 803); (false, 1300)]) = [EvClick 1].
Proof. vm_compute. repeat split; reflexivity. Qed.

(** C5, amended.  The levels the filter hands to the state machine, from
    idle: released; a press, held while the time measured since it was seen
    has not passed [pressThreshold]; a tick, still pressed, at which it has;
    pressed for as long as one likes; the release; released from then on.
    With a long-press handler attached, that handler is called once, at the
    tick where the measured time first exceeds the threshold, and nothing
    else is called, neither before nor at or after the release. *)
Theorem long_press (b : OneButtonTiny) (tr : list sample) (f : nat)
  (idle hold held post : list (bool * Z)) (p k r : Z) :
  wf b -> _getState b = OCS_INIT -> _longPressStartFunc b = Some f ->
  stable_trace b tr =
    idle ++ (true, p) :: hold ++ (true, k) :: held ++ (false, r) :: post ->
  inactive idle = true ->
  held_below (_press_ms b) (_now p) hold = true ->
  _press_ms b < _elapsed (_now k) (_now p) ->
  active held = true ->
  inactive post = true ->
  tick_log b tr =
    silent (idle ++ (true, p) :: hold) ++
    [EvLongPressStart f] :: silent (held ++ (false, r) :: post) /\
  snd (run_ticks b tr) = [EvLongPressStart f] /\
  count_events is_long_press_start (snd (run_ticks b tr)) = 1%nat /\
  count_events is_click (snd (run_ticks b tr)) = 0%nat /\
  count_events is_double_click (snd (run_ticks b tr)) = 0%nat.
Proof.
  intros Hwf Hst Hf Hshape Hidle Hhold Hk Hheld Hpost.
  assert (Hrun : exists v',
             run_unpacked (fsm_view_of b)
               (idle ++ (true, p) :: hold ++ (true, k) :: held ++
                (false, r) :: post) =
             (v', silent (idle ++ (true, p) :: hold) ++
                  [EvLongPressStart f] :: silent (held ++ (false, r) :: post))).
  { unfold fsm_view_of. rewrite Hst, Hf. eexists.
    rewrite run_idle by exact Hidle.
    rewrite (run_step _ _ _ _ _ _ (tr_press _ _ _ _ _ _ _ p)).
    rewrite run_held by exact Hhold.
    rewrite (run_step _ _ _ _ _ _ (tr_long _ _ _ _ _ 0 (_now p) k Hk)).
    rewrite run_long_held by exact Hheld.
    rewrite (run_step _ _ _ _ _ _ (tr_long_release _ _ _ _ _ 0 (_now p) r)).
    rewrite run_after_long_press by exact Hpost.
    rewrite !prepend_prepend, prepend_pair.
    rewrite !silent_app, <- !app_assoc. reflexivity. }
  destruct Hrun as [v' Hrun].
  destruct (lift_log b tr _ _ _ Hwf Hshape Hrun) as (Hlog & Hev & _).
  rewrite concat_one_event in Hev. rewrite Hev. auto.
Qed.

(** The defaults, a tick every millisecond, the button held from 100 ms to
    1100 ms: the handler is called at 952 ms. *)
Lemma long_press_witness :
  snd (run_ticks default_button
         (every_ms false 0 100 ++ every_ms true 100 1000 ++
          every_ms false 1100 600)) = [EvLongPressStart 3].
Proof.
  pose (st := fun (l : bool) (from : Z) (n : nat) =>
                map (fun s => (l, s_millis_fsm s)) (every_ms l from n)).
  refine (proj1 (proj2 (long_press default_button
            (every_ms false 0 100 ++ every_ms true 100 1000 ++
             every_ms false 1100 600) 3
            (st false 0 148%nat) (st true 149 803%nat) (st true 953 195%nat)
            (st false 1149 551%nat) 148 952 1148
            _ _ _ _ _ _ _ _ _))).
  - unfold wf. cbn. lia.
  - reflexivity.
  - reflexivity.
  - vm_compute. reflexivity.
  - vm_compute. reflexivity.
  - vm_compute. reflexivity.
  - vm_compute. reflexivity.
  - vm_compute. reflexivity.
  - vm_compute. reflexivity.
Defined.

(** C2, as stated, fails: with the defaults of the header and a tick every
    millisecond, the button is pressed three times for 100 ms with 100 ms
    between the presses.  The double click is reported right after the
    second release, and the third press, which finds the machine idle again,
    ends in a click of its own.  The same on eleven calls of [_fsm]. *)
Lemma triple_click_is_double_then_single :
  let tr := every_ms false 0 100 ++
            every_ms true 100 100 ++ every_ms false 200 100 ++
            every_ms true 300 100 ++ every_ms false 400 100 ++
            every_ms true 500 100 ++ every_ms false 600 600 in
  snd (run_ticks default_button tr) = [EvDoubleClick 2; EvClick 1] /\
  count_events is_click (snd (run_ticks default_button tr)) = 1%nat /\
  snd (run_fsm default_button
         [(true, 0); (false, 100); (false, 110);
          (true, 200); (false, 300); (false, 310); (false, 320);
          (true, 400); (false, 500); (false, 510); (false, 1000)]) =
  [EvDoubleClick 2; EvClick 1].
Proof. vm_compute. repeat split; reflexivity. Qed.

(** C2, amended.  The levels the filter hands to the state machine, from
    idle, for three press-release cycles none of which is held beyond
    [pressThreshold]: the second press comes before the click window of the
    first release has expired; the button is seen released at the tick after
    the second release has been counted; the third press comes at any time
    after that, and the click window of its release expires without a
    further press.  With click and double-click handlers attached, the
    double-click handler is called once, at the tick after the second
    release has been counted, and that ends the group: the third cycle is a
    group of its own and calls the click handler once.  There is no third
    kind of event. *)
Theorem triple_click (b : OneButtonTiny) (tr : list sample) (f g : nat)
  (idle hold1 wait1 hold2 idle2 hold3 wait3 post : list (bool * Z))
  (p1 r1 p2 r2 d p3 r3 e : Z) (u1 u2 u3 : bool * Z) :
  wf b -> _getState b = OCS_INIT ->
  _clickFunc b = Some f -> _doubleClickFunc b = Some g ->
  stable_trace b tr =
    idle ++ cycle p1 hold1 r1 u1 ++ wait1 ++ cycle p2 hold2 r2 u2 ++
    (false, d) :: idle2 ++ cycle p3 hold3 r3 u3 ++ wait3 ++ (false, e) :: post ->
  inactive idle = true ->
  held_below (_press_ms b) (_now p1) hold1 = true ->
  waiting_below (_click_ms b) (_now r1) wait1 = true ->
  held_below (_press_ms b) (_now p2) hold2 = true ->
  inactive idle2 = true ->
  held_below (_press_ms b) (_now p3) hold3 = true ->
  waiting_below (_click_ms b) (_now r3) wait3 = true ->
  _click_ms b <= _elapsed (_now e) (_now r3) ->
  inactive post = true ->
  tick_log b tr =
    silent (idle ++ cycle p1 hold1 r1 u1 ++ wait1 ++ cycle p2 hold2 r2 u2) ++
    [EvDoubleClick g] ::
    silent (idle2 ++ cycle p3 hold3 r3 u3 ++ wait3) ++
    [EvClick f] :: silent post /\
  snd (run_ticks b tr) = [EvDoubleClick g; EvClick f] /\
  count_events is_double_click (snd (run_ticks b tr)) = 1%nat.
Proof.
  intros Hwf Hst Hf Hg Hshape Hidle Hh1 Hw1 Hh2 Hi2 Hh3 Hw3 He Hpost.
  assert (Hrun : exists v',
             run_unpacked (fsm_view_of b)
               (idle ++ cycle p1 hold1 r1 u1 ++ wait1 ++
                cycle p2 hold2 r2 u2 ++ (false, d) :: idle2 ++
                cycle p3 hold3 r3 u3 ++ wait3 ++ (false, e) :: post) =
             (v', silent (idle ++ cycle p1 hold1 r1 u1 ++ wait1 ++
                          cycle p2 hold2 r2 u2) ++
                  [EvDoubleClick g] ::
                  silent (idle2 ++ cycle p3 hold3 r3 u3 ++ wait3) ++
                  [EvClick f] :: silent post)).
  { unfold fsm_view_of. rewrite Hst, Hf, Hg. eexists.
    rewrite run_idle by exact Hidle.
    rewrite run_cycle_from_idle by exact Hh1.
    rewrite run_waiting by (try exact Hw1; lia).
    rewrite run_cycle_from_count by exact Hh2.
    change ((1 + 1) mod 4) with 2.
    rewrite (run_step _ _ _ _ _ _
               (tr_timeout _ _ _ _ _ 2 (_now r2) d (or_intror (Z.le_refl 2)))).
    rewrite run_idle by exact Hi2.
    rewrite run_cycle_from_idle by exact Hh3.
    rewrite run_waiting by (try exact Hw3; lia).
    rewrite (run_step _ _ _ _ _ _
               (tr_timeout _ _ _ _ _ 1 (_now r3) e (or_introl He))).
    rewrite <- (app_nil_r post), run_idle by exact Hpost.
    rewrite run_unpacked_nil, !prepend_prepend, prepend_pair, !app_nil_r.
    rewrite !silent_app, <- !app_assoc. reflexivity. }
  destruct Hrun as [v' Hrun].
  destruct (lift_log b tr _ _ _ Hwf Hshape Hrun) as (Hlog & Hev & _).
  rewrite concat_app, concat_silent in Hev. cbn [concat app] in Hev.
  rewrite concat_one_event in Hev. rewrite Hev. auto.
Qed.

(** The presses of [triple_click_is_double_then_single], as the filter
    shows them: 148-248 ms, 348-448 ms and 548-648 ms. *)
Lemma triple_click_witness :
  snd (run_ticks default_button
         (every_ms false 0 100 ++
          every_ms true 100 100 ++ every_ms false 200 100 ++
          every_ms true 300 100 ++ every_ms false 400 100 ++
          every_ms true 500 100 ++ every_ms false 600 600)) =
  [EvDoubleClick 2; EvClick 1].
Proof.
  pose (st := fun (l : bool) (from : Z) (n : nat) =>
                map (fun s => (l, s_millis_fsm s)) (every_ms l from n)).
  refine (proj1 (proj2 (triple_click default_button
            (every_ms false 0 100 ++
             every_ms true 100 100 ++ every_ms false 200 100 ++
             every_ms true 300 100 ++ every_ms false 400 100 ++
             every_ms true 500 100 ++ every_ms false 600 600) 1 2
            (st false 0 148%nat) (st true 149 99%nat) (st false 250 98%nat)
            (st true 349 99%nat) (st false 451 97%nat) (st true 549 99%nat)
            (st false 650 398%nat) (st false 1049 151%nat)
            148 248 348 448 450 548 648 1048
            (false, 249) (false, 449) (false, 649)
            _ _ _ _ _ _ _ _ _ _ _ _ _ _))).
  - unfold wf. cbn. lia.
  - reflexivity.
  - reflexivity.
  - reflexivity.
  - vm_compute. reflexivity.
  - vm_compute. reflexivity.
  - vm_compute. reflexivity.
  - vm_compute. reflexivity.
  - vm_compute. reflexivity.
  - vm_compute. reflexivity.
  - vm_compute. reflexivity.
  - vm_compute. reflexivity.
  - vm_compute. discriminate.
  - vm_compute. reflexivity.
Defined.

(** The one way a third press joins the group: it is already seen at the
    tick after the second release has been counted.  The count goes to
    three and the double click is reported after the third release. *)
Theorem third_press_absorbed (b : OneButtonTiny) (tr : list sample) (g : nat)
  (idle hold1 wait1 hold2 hold3 post : list (bool * Z))
  (p1 r1 p2 r2 p3 r3 d : Z) (u1 u2 u3 : bool * Z) :
  wf b -> _getState b = OCS_INIT -> _doubleClickFunc b = Some g ->
  stable_trace b tr =
    idle ++ cycle p1 hold1 r1 u1 ++ wait1 ++ cycle p2 hold2 r2 u2 ++
    cycle p3 hold3 r3 u3 ++ (false, d) :: post ->
  inactive idle = true ->
  held_below (_press_ms b) (_now p1) hold1 = true ->
  waiting_below (_click_ms b) (_now r1) wait1 = true ->
  held_below (_press_ms b) (_now p2) hold2 = true ->
  held_below (_press_ms b) (_now p3) hold3 = true ->
  inactive post = true ->
  tick_log b tr =
    silent (idle ++ cycle p1 hold1 r1 u1 ++ wait1 ++ cycle p2 hold2 r2 u2 ++
            cycle p3 hold3 r3 u3) ++
    [EvDoubleClick g] :: silent post /\
  snd (run_ticks b tr) = [EvDoubleClick g].
Proof.
  intros Hwf Hst Hg Hshape Hidle Hh1 Hw1 Hh2 Hh3 Hpost.
  assert (Hrun : exists v',
             run_unpacked (fsm_view_of b)
               (idle ++ cycle p1 hold1 r1 u1 ++ wait1 ++
                cycle p2 hold2 r2 u2 ++ cycle p3 hold3 r3 u3 ++
                (false, d) :: post) =
             (v', silent (idle ++ cycle p1 hold1 r1 u1 ++ wait1 ++
                          cycle p2 hold2 r2 u2 ++ cycle p3 hold3 r3 u3) ++
                  [EvDoubleClick g] :: silent post)).
  { unfold fsm_view_of. rewrite Hst, Hg. eexists.
    rewrite run_idle by exact Hidle.
    rewrite run_cycle_from_idle by exact Hh1.
    rewrite run_waiting by (try exact Hw1; lia).
    rewrite run_cycle_from_count by exact Hh2.
    rewrite run_cycle_from_count by exact Hh3.
    change (((1 + 1) mod 4 + 1) mod 4) with 3.
    assert (H23 : 2 <= 3) by lia.
    rewrite (run_step _ _ _ _ _ _
               (tr_timeout _ _ _ _ _ 3 (_now r3) d (or_intror H23))).
    rewrite <- (app_nil_r post), run_idle by exact Hpost.
    rewrite run_unpacked_nil, !prepend_prepend, prepend_pair, !app_nil_r.
    rewrite !silent_app, <- !app_assoc. reflexivity. }
  destruct Hrun as [v' Hrun].
  destruct (lift_log b tr _ _ _ Hwf Hshape Hrun) as (Hlog & Hev & _).
  rewrite concat_one_event in Hev. auto.
Qed.

(** ** The click count *)



(** * Further properties of the code *)

(** ** The packed byte and the two components that share it *)

(** X2.  The five fields packed into [_flags] do not disturb each other:
    each setter stores its argument in its own field (the click count
    modulo 4, as the field has two bits) and leaves the four other fields as
    they are. *)
Theorem packed_fields_independent (b : OneButtonTiny) :
  wf b ->
  (forall s, state_code s ->
     _getState (_setState b s) = s /\
     _getClicks (_setState b s) = _getClicks b /\
     _getButtonPressed (_setState b s) = _getButtonPressed b /\
     _getLastLevel (_setState b s) = _getLastLevel b /\
     _getDebouncedLevel (_setState b s) = _getDebouncedLevel b) /\
  (forall c,
     _getClicks (_setClicks b c) = c mod 4 /\
     _getState (_setClicks b c) = _getState b /\
     _getButtonPressed (_setClicks b c) = _getButtonPressed b /\
     _getLastLevel (_setClicks b c) = _getLastLevel b /\
     _getDebouncedLevel (_setClicks b c) = _getDebouncedLevel b) /\
  (forall v,
     _getLastLevel (_setLastLevel b v) = v /\
     _getState (_setLastLevel b v) = _getState b /\
     _getClicks (_setLastLevel b v) = _getClicks b /\
     _getButtonPressed (_setLastLevel b v) = _getButtonPressed b /\
     _getDebouncedLevel (_setLastLevel b v) = _getDebouncedLevel b) /\
  (forall v,
     _getDebouncedLevel (_setDebouncedLevel b v) = v /\
     _getState (_setDebouncedLevel b v) = _getState b /\
     _getClicks (_setDebouncedLevel b v) = _getClicks b /\
     _getButtonPressed (_setDebouncedLevel b v) = _getButtonPressed b /\
     _getLastLevel (_setDebouncedLevel b v) = _getLastLevel b).
Proof.
  intros Hwf. repeat split.
  - now apply getState_setState.
  - now apply getClicks_setState.
  - now apply getButtonPressed_setState.
  - now apply getLastLevel_setState.
  - now apply getDebouncedLevel_setState.
  - now apply getClicks_setClicks.
  - now apply getState_setClicks.
  - now apply getButtonPressed_setClicks.
  - now apply getLastLevel_setClicks.
  - now apply getDebouncedLevel_setClicks.
  - now apply getLastLevel_setLastLevel.
  - now apply getState_setLastLevel.
  - now apply getClicks_setLastLevel.
  - now apply getButtonPressed_setLastLevel.
  - now apply getDebouncedLevel_setLastLevel.
  - now apply getDebouncedLevel_setDebouncedLevel.
  - now apply getState_setDebouncedLevel.
  - now apply getClicks_setDebouncedLevel.
  - now apply getButtonPressed_setDebouncedLevel.
  - now apply getLastLevel_setDebouncedLevel.
Qed.

(** A byte with every field in use: storing one more click than fits. *)
Lemma packed_fields_independent_witness :
  let b := with_flags default_button 0xEF in
  _getClicks b = 3 /\ _getClicks (_setClicks b (_getClicks b + 1)) = 0 /\
  _getState (_setClicks b (_getClicks b + 1)) = OCS_COUNT.
Proof.
  assert (Hwf : wf (with_flags default_button 0xEF)) by (unfold wf; cbn; lia).
  destruct (packed_fields_independent _ Hwf) as (_ & Hc & _).
  destruct (Hc (_getClicks (with_flags default_button 0xEF) + 1)) as (H1 & H2 & _).
  split; [reflexivity|]. split; [rewrite H1; reflexivity | rewrite H2; reflexivity].
Defined.

(** X12.  The filter and the state machine share [_flags] without touching
    each other: [_debounce] leaves the state, the click count, the start
    time and the legacy state alone, [_fsm] leaves the last level, the
    stable level and the time of the last change alone, and neither changes
    a threshold, a handler, the pin or the polarity. *)
Theorem filter_and_machine_independent (b : OneButtonTiny) (level : bool) (m : Z) :
  wf b ->
  fsm_view_of (fst (_debounce b level m)) = fsm_view_of b /\
  _state (fst (_debounce b level m)) = _state b /\
  debounce_view_of (fst (_fsm b level m)) = debounce_view_of b /\
  same_config b (fst (_debounce b level m)) /\
  same_config b (fst (_fsm b level m)).
Proof.
  intros Hwf. split; [|split; [|split; [|split]]].
  - now apply debounce_fsm_view.
  - apply debounce_legacy.
  - now apply fsm_debounce_view.
  - now apply debounce_same_config.
  - now apply fsm_same_config.
Qed.

(** In the middle of a double click, with the button bouncing. *)
Lemma filter_and_machine_independent_witness :
  let b := fst (run_ticks default_button
                  (every_ms true 0 100 ++ every_ms false 100 100)) in
  _getState b = OCS_COUNT /\
  _getState (fst (_debounce b true 200)) = OCS_COUNT /\
  _getLastLevel (fst (_fsm b true 200)) = false.
Proof.
  cbv zeta.
  assert (Hwf : wf (fst (run_ticks default_button
                           (every_ms true 0 100 ++ every_ms false 100 100))))
    by (apply run_ticks_wf; unfold wf; cbn; lia).
  destruct (filter_and_machine_independent _ true 200 Hwf) as (Hv & _ & Hd & _).
  apply (f_equal v_state) in Hv. apply (f_equal d_last) in Hd.
  cbn [fsm_view_of debounce_view_of v_state d_last] in Hv, Hd.
  split; [vm_compute; reflexivity|].
  split; [rewrite Hv | rewrite Hd]; vm_compute; reflexivity.
Defined.

(** ** [reset()] *)

Lemma reset_flags_twice :
  forall f, 0 <= f < 256 ->
  w_clicks 0 (w_state OCS_INIT (w_clicks 0 (w_state OCS_INIT f))) =
  w_clicks 0 (w_state OCS_INIT f).
Proof. bytes_Z. Qed.

Lemma reset_flags b : _flags (reset b) = w_clicks 0 (w_state OCS_INIT (_flags b)).
Proof. reflexivity. Qed.

Lemma reset_fields b :
  reset b =
  mkOneButtonTiny (_click_ms b) (_press_ms b) 0 (_lastDebounceTime b)
    (_clickFunc b) (_doubleClickFunc b) (_longPressStartFunc b) (_pin b)
    (_debounce_ms b) (_flags (reset b)) OCS_INIT.
Proof. reflexivity. Qed.

Lemma fsm_events_unpacked b level m : wf b ->
  snd (_fsm b level m) = snd (fsm_unpacked (fsm_view_of b) level m).
Proof. intros Hwf. apply fsm_unpacked_ok, Hwf. Qed.

Lemma idle_is_silent b level m : wf b -> _getState b = OCS_INIT ->
  snd (_fsm b level m) = [].
Proof.
  intros Hwf Hs. rewrite fsm_events_unpacked by assumption.
  unfold fsm_view_of, fsm_unpacked. cbn [v_state]. rewrite Hs.
  now destruct level.
Qed.

(** X11.  [reset()] twice is [reset()] once, and the tick that follows a
    [reset()] calls no callback, whatever was pending: clicks counted so far
    are dropped, not reported. *)
Theorem reset_idempotent (b : OneButtonTiny) (level : bool) (m1 m2 : Z) :
  wf b ->
  reset (reset b) = reset b /\
  snd (_fsm (reset b) level m2) = [] /\
  snd (tick_level (reset b) level m1 m2) = [].
Proof.
  intros Hwf.
  assert (Hs : _getState (reset b) = OCS_INIT).
  { pose proof (reset_view b Hwf) as Hv. now apply (f_equal v_state) in Hv. }
  split; [|split].
  - etransitivity; [apply reset_fields|].
    symmetry. etransitivity; [apply reset_fields|]. symmetry.
    rewrite (reset_flags (reset b)), (reset_flags b).
    rewrite (reset_flags_twice (_flags b) Hwf). reflexivity.
  - apply idle_is_silent; [apply wf_reset | exact Hs].
  - rewrite tick_level_eq. apply idle_is_silent.
    + apply debounce_wf, wf_reset.
    + pose proof (debounce_fsm_view (reset b) level m1 (wf_reset b)) as Hv.
      apply (f_equal v_state) in Hv. cbn [fsm_view_of v_state] in Hv.
      now rewrite Hv.
Qed.

(** One click counted and the window about to expire: after [reset()] the
    tick at which it would have been reported is silent. *)
Lemma reset_idempotent_witness :
  let b := fst (run_ticks default_button
                  (every_ms true 0 100 ++ every_ms false 100 395)) in
  _getClicks b = 1 /\ snd (tick_level b false 548 548) = [EvClick 1] /\
  snd (tick_level (reset b) false 548 548) = [].
Proof.
  cbv zeta. split; [vm_compute; reflexivity|]. split; [vm_compute; reflexivity|].
  apply (reset_idempotent _ false 548 548).
  apply run_ticks_wf. unfold wf. cbn. lia.
Defined.

(** ** What the public interface can produce *)

Lemma fsm_unpacked_state_defined v level m :
  In (v_state (fst (fsm_unpacked v level m))) defined_states.
Proof.
  unfold fsm_unpacked, defined_states.
  destruct (Z.eqb_spec (v_state v) OCS_INIT) as [E0|_];
    [destruct level; cbn [fst v_goto v_state]; [|rewrite E0]; cbn; tauto|].
  destruct (Z.eqb_spec (v_state v) OCS_DOWN) as [E1|_].
  { destruct level; cbn [negb]; [destruct (_ >? _)|];
      cbn [fst v_goto v_state]; try rewrite E1; cbn; tauto. }
  destruct (Z.eqb_spec (v_state v) OCS_UP) as [E2|_];
    [cbn [fst v_goto v_state]; cbn; tauto|].
  destruct (Z.eqb_spec (v_state v) OCS_COUNT) as [E3|_].
  { destruct level; [|destruct (_ || _)];
      cbn [fst v_goto v_state]; try rewrite E3; cbn; tauto. }
  destruct (Z.eqb_spec (v_state v) OCS_PRESS) as [E4|_].
  { destruct level; cbn [negb fst v_goto v_state]; try rewrite E4; cbn; tauto. }
  cbn [fst v_goto v_state]; cbn; tauto.
Qed.

Lemma fsm_state_defined b level m : wf b ->
  In (_getState (fst (_fsm b level m))) defined_states.
Proof.
  intros Hwf. destruct (fsm_unpacked_ok b level m Hwf) as [Hv _].
  apply (f_equal v_state) in Hv.
  change (v_state (fsm_view_of (fst (_fsm b level m))))
    with (_getState (fst (_fsm b level m))) in Hv.
  rewrite Hv. apply fsm_unpacked_state_defined.
Qed.

(** X3.  No sequence of public operations leaves the three state bits with
    a code outside the enumeration: the [default] branch of the switch in
    [_fsm] is never taken on an object the interface has produced. *)
Theorem reachable_state_defined (b : OneButtonTiny) :
  reachable b -> In (_getState b) defined_states.
Proof.
  induction 1 as [pin al pu | b ms _ IH | b ms _ IH | b ms _ IH | b f _ IH
                 | b f _ IH | b f _ IH | b Hr _ | b raw m1 m2 Hr _
                 | b lvl m1 m2 Hr _]; try exact IH.
  - destruct al; cbn; tauto.
  - destruct (reachable_in_sync b Hr) as [Hwf _].
    pose proof (reset_view b Hwf) as Hv. apply (f_equal v_state) in Hv.
    cbn [fsm_view_of v_state v_goto] in Hv. rewrite Hv. cbn; tauto.
  - destruct (reachable_in_sync b Hr) as [Hwf _]. unfold tick.
    rewrite tick_level_eq. apply fsm_state_defined. now apply debounce_wf.
  - destruct (reachable_in_sync b Hr) as [Hwf _].
    rewrite tick_level_eq. apply fsm_state_defined. now apply debounce_wf.
Qed.

(** A button that has just been seen pressed, in [OCS_DOWN]. *)
Lemma reachable_state_defined_witness :
  In (_getState (fst (tick_level
                        (fst (tick_level (OneButtonTiny_new 2 true true)
                                         true 0 0)) true 1000 1000)))
     defined_states.
Proof.
  apply reachable_state_defined.
  apply reach_tick_level, reach_tick_level, reach_new.
Defined.

(** ** Configuration *)

Lemma same_config_trans b1 b2 b3 :
  same_config b1 b2 -> same_config b2 b3 -> same_config b1 b3.
Proof.
  unfold same_config. intros H12 H23.
  destruct H12 as (A1 & A2 & A3 & A4 & A5 & A6 & A7 & A8).
  destruct H23 as (B1 & B2 & B3 & B4 & B5 & B6 & B7 & B8).
  repeat split; congruence.
Qed.

Lemma same_config_refl b : same_config b b.
Proof. unfold same_config. repeat split. Qed.

Lemma tick_level_same_config b level m1 m2 : wf b ->
  same_config b (fst (tick_level b level m1 m2)).
Proof.
  intros Hwf. rewrite tick_level_eq.
  eapply same_config_trans; [now apply debounce_same_config|].
  apply fsm_same_config. now apply debounce_wf.
Qed.

Lemma run_ticks_same_config b tr : wf b -> same_config b (fst (run_ticks b tr)).
Proof.
  revert b. induction tr as [|s tr IH]; intros b Hwf; cbn [run_ticks fst].
  - apply same_config_refl.
  - pose proof (tick_level_same_config b (s_level s) (s_millis_debounce s)
                  (s_millis_fsm s) Hwf) as H1.
    pose proof (tick_level_wf b (s_level s) (s_millis_debounce s)
                  (s_millis_fsm s) Hwf) as Hwf1.
    unfold tick_sample. destruct (tick_level b _ _ _) as [b1 e1].
    cbn [fst] in *. specialize (IH b1 Hwf1).
    destruct (run_ticks b1 tr) as [b2 e2]. cbn [fst] in *.
    eapply same_config_trans; eassumption.
Qed.

Lemma derived_keeps b0 b : wf b0 -> derived b0 b ->
  wf b /\ _getButtonPressed b = _getButtonPressed b0 /\ _pin b = _pin b0.
Proof.
  intros Hwf0. induction 1 as [ | b ms _ IH | b ms _ IH | b ms _ IH | b f _ IH
                 | b f _ IH | b f _ IH | b _ IH | b raw m1 m2 _ IH
                 | b lvl m1 m2 _ IH]; try exact IH; auto.
  - destruct IH as (Hwf & Hp & Hn). split; [apply wf_reset|].
    destruct (reset_same_config b Hwf) as (_ & _ & _ & _ & _ & Hpin & _ & Hpol).
    split; congruence.
  - destruct IH as (Hwf & Hp & Hn). unfold tick.
    split; [now apply tick_level_wf|].
    destruct (tick_level_same_config b (if _getButtonPressed b then raw else negb raw)
                m1 m2 Hwf) as (_ & _ & _ & _ & _ & Hpin & _ & Hpol).
    split; congruence.
  - destruct IH as (Hwf & Hp & Hn).
    split; [now apply tick_level_wf|].
    destruct (tick_level_same_config b lvl m1 m2 Hwf)
      as (_ & _ & _ & _ & _ & Hpin & _ & Hpol).
    split; congruence.
Qed.

(** X4.  The polarity and the pin chosen in the constructor stay for good:
    whatever setters, attachments, resets and ticks follow, [pin()] returns
    the constructor's pin (as a byte) and [tick()] takes a LOW reading for
    "pressed" exactly when the button was constructed active-low. *)
Theorem polarity_fixed_at_construction (p : Z) (activeLow pullupActive : bool)
  (b : OneButtonTiny) :
  derived (OneButtonTiny_new p activeLow pullupActive) b ->
  _getButtonPressed b = negb activeLow /\
  pin b = uint8 p /\
  forall rawLevel m1 m2,
    tick b rawLevel m1 m2 =
    tick_level b (if activeLow then negb rawLevel else rawLevel) m1 m2.
Proof.
  intros Hd.
  destruct (derived_keeps _ b (wf_new p activeLow pullupActive) Hd)
    as (_ & Hpol & Hpin).
  assert (Hp : _getButtonPressed b = negb activeLow)
    by (rewrite Hpol; now destruct activeLow).
  split; [exact Hp|]. split; [unfold pin; rewrite Hpin; now destruct activeLow|].
  intros raw m1 m2. unfold tick. rewrite Hp. now destruct activeLow.
Qed.

(** An active-low button on pin 258, after a reset and a tick: a LOW
    reading is taken as a press. *)
Lemma polarity_fixed_at_construction_witness :
  let b := fst (tick (reset (setClickMs (OneButtonTiny_new 258 true false) 300))
                     false 0 0) in
  pin b = 2 /\ tick b false 4 4 = tick_level b true 4 4.
Proof.
  cbv zeta.
  destruct (polarity_fixed_at_construction 258 true false
              (fst (tick (reset (setClickMs (OneButtonTiny_new 258 true false) 300))
                         false 0 0))) as (_ & Hpin & Ht).
  - apply der_tick, der_reset, der_setClickMs, der_self.
  - split; [exact Hpin | exact (Ht false 4 4)].
Defined.

(** ** Which callbacks a tick can call *)

Lemma fsm_unpacked_from_slot v level m e :
  In e (snd (fsm_unpacked v level m)) ->
  match e with
  | EvClick f => v_clickFunc v = Some f
  | EvDoubleClick f => v_doubleClickFunc v = Some f
  | EvLongPressStart f => v_longPressStartFunc v = Some f
  end.
Proof.
  unfold fsm_unpacked, report, call.
  repeat match goal with
    | |- context [if ?c then _ else _] => destruct c
    | |- context [match ?c with Some _ => _ | None => _ end] =>
        let E := fresh "E" in destruct c eqn:E
    end; cbn [snd In]; intros H; try contradiction;
    destruct H as [<- | []]; first [assumption | reflexivity].
Qed.

Lemma fsm_from_slot b level m e : wf b ->
  In e (snd (_fsm b level m)) -> from_slot b e.
Proof.
  intros Hwf. rewrite fsm_events_unpacked by assumption. intros H.
  apply fsm_unpacked_from_slot in H. destruct e; exact H.
Qed.

Lemma from_slot_same_config b b' e :
  same_config b b' -> from_slot b' e -> from_slot b e.
Proof.
  intros (_ & _ & H1 & H2 & H3 & _). destruct e; cbn [from_slot]; congruence.
Qed.

Lemma run_ticks_from_slot b tr e : wf b ->
  In e (snd (run_ticks b tr)) -> from_slot b e.
Proof.
  revert b. induction tr as [|s tr IH]; intros b Hwf; cbn [run_ticks snd];
    [intros []|].
  pose proof (tick_level_same_config b (s_level s) (s_millis_debounce s)
                (s_millis_fsm s) Hwf) as Hc.
  pose proof (tick_level_wf b (s_level s) (s_millis_debounce s)
                (s_millis_fsm s) Hwf) as Hwf1.
  assert (H1 : forall e, In e (snd (tick_sample b s)) -> from_slot b e).
  { intros e' He. unfold tick_sample in He. rewrite tick_level_eq in He.
    apply fsm_from_slot in He; [|now apply debounce_wf].
    eapply from_slot_same_config; [|exact He]. now apply debounce_same_config. }
  unfold tick_sample in *. destruct (tick_level b _ _ _) as [b1 e1].
  cbn [fst snd] in *. specialize (IH b1 Hwf1).
  destruct (run_ticks b1 tr) as [b2 e2]. cbn [fst snd] in *.
  intros Hin. apply in_app_or in Hin as [Hin | Hin]; [now apply H1|].
  eapply from_slot_same_config; [exact Hc | now apply IH].
Qed.

(** X5.  Over any sequence of ticks, every callback that is called is the
    handler sitting in the slot of its own kind: a click is reported to
    the click handler only, and so on.  An empty slot is never called, so
    a button without handlers calls nothing at all. *)
Theorem only_attached_handlers (b : OneButtonTiny) (tr : list sample) :
  wf b ->
  (forall e, In e (snd (run_ticks b tr)) -> from_slot b e) /\
  (no_handlers b -> snd (run_ticks b tr) = []).
Proof.
  intros Hwf. split; [intros e; now apply run_ticks_from_slot|].
  intros (H1 & H2 & H3).
  destruct (snd (run_ticks b tr)) as [|e l] eqn:E; [reflexivity|].
  assert (Hs : from_slot b e)
    by (apply (run_ticks_from_slot b tr e Hwf); rewrite E; now left).
  destruct e; cbn [from_slot] in Hs; unfold nullptr in *; congruence.
Qed.

(** A double click on a button that has a click handler only. *)
Lemma only_attached_handlers_witness :
  let b := attachClick (OneButtonTiny_new 2 true true) (Some 7%nat) in
  let tr := every_ms true 0 100 ++ every_ms false 100 100 ++
            every_ms true 200 100 ++ every_ms false 300 600 in
  snd (run_ticks b tr) = [] /\
  snd (run_ticks (OneButtonTiny_new 2 true true) tr) = [].
Proof.
  cbv zeta. split; [vm_compute; reflexivity|].
  apply only_attached_handlers.
  - unfold wf. cbn. lia.
  - repeat split.
Defined.

(** ** The range of the measured wait *)

Lemma elapsed_quarter now start :
  _elapsed now start = 4 * ((now - start) mod 16384).
Proof.
  unfold _elapsed, uint16. rewrite Z.shiftl_mul_pow2 by lia.
  replace ((now - start) * 2 ^ 2) with (4 * (now - start)) by lia.
  replace 65536 with (4 * 16384) by lia.
  rewrite Z.mul_mod_distr_l by lia. reflexivity.
Qed.

Lemma uint16_minus_quarter x start :
  (uint16 x - start) mod 16384 = (x - start) mod 16384.
Proof.
  unfold uint16. rewrite Zminus_mod, Z.mod_mod_divide by (exists 4; lia).
  now rewrite <- Zminus_mod.
Qed.

Lemma elapsed_range now start : 0 <= _elapsed now start <= 65532.
Proof.
  rewrite elapsed_quarter.
  pose proof (Z.mod_pos_bound (now - start) 16384 ltac:(lia)). lia.
Qed.

(** X6.  The wait [_fsm] measures is a multiple of 4 between 0 and 65532,
    and it starts again from the same value every 65536 ms of [millis()]:
    the stored clock has a range of 262 seconds, the wait computed from it
    one of 65.5 seconds. *)
Theorem measured_wait_range (now start millis : Z) :
  0 <= _elapsed now start <= 65532 /\
  (_elapsed now start) mod 4 = 0 /\
  _elapsed (_now (millis + 65536)) start = _elapsed (_now millis) start.
Proof.
  split; [|split].
  - apply elapsed_range.
  - rewrite elapsed_quarter, Z.mul_comm. apply Z.mod_mul. lia.
  - rewrite !elapsed_quarter. f_equal. unfold _now.
    rewrite !uint16_minus_quarter, !Z.shiftr_div_pow2 by lia.
    replace (millis + 65536) with (millis + 16384 * 2 ^ 2) by lia.
    rewrite Z.div_add by lia.
    replace (millis / 2 ^ 2 + 16384 - start)
      with (millis / 2 ^ 2 - start + 1 * 16384) by lia.
    now rewrite Z.mod_add by lia.
Qed.

(** ** Thresholds the clock cannot reach *)

Lemma inactive_waits cm t seg : 65532 < cm ->
  inactive seg = true -> waiting_below cm t seg = true.
Proof.
  intros Hcm H. unfold inactive, waiting_below in *.
  rewrite forallb_forall in *. intros x Hx. rewrite (H x Hx). cbn [andb].
  apply Z.ltb_lt. pose proof (elapsed_range (_now (snd x)) t). lia.
Qed.

Lemma active_holds pm t seg : 65532 <= pm ->
  active seg = true -> held_below pm t seg = true.
Proof.
  intros Hpm H. unfold active, held_below in *.
  rewrite forallb_forall in *. intros x Hx. rewrite (H x Hx). cbn [andb].
  apply Z.leb_le. pose proof (elapsed_range (_now (snd x)) t). lia.
Qed.

Lemma silent_run b tr :
  wf b ->
  Forall (fun s => fsm_unpacked (fsm_view_of b) (fst s) (snd s) = (fsm_view_of b, []))
         (stable_trace b tr) ->
  snd (run_ticks b tr) = [] /\ fsm_view_of (fst (run_ticks b tr)) = fsm_view_of b.
Proof.
  intros Hwf Hst.
  pose proof (run_stutter _ _ [] Hst) as Hrun.
  rewrite app_nil_r, run_unpacked_nil, prepend_pair, app_nil_r in Hrun.
  destruct (lift_log b tr _ _ _ Hwf eq_refl Hrun) as (_ & Hev & Hv).
  now rewrite concat_silent in Hev.
Qed.

(** X7.  A click window above 65532 ms never expires: while the button is
    seen released, a machine that is counting fewer than two clicks calls
    no callback and stays in the counting state, however long that lasts
    and whatever the clock shows; the click is only reported, as part of a
    double click, if the button is pressed again. *)
Theorem click_window_beyond_clock (b : OneButtonTiny) (tr : list sample) :
  wf b -> _getState b = OCS_COUNT -> _getClicks b < 2 ->
  65532 < _click_ms b ->
  inactive (stable_trace b tr) = true ->
  snd (run_ticks b tr) = [] /\
  _getState (fst (run_ticks b tr)) = OCS_COUNT /\
  _getClicks (fst (run_ticks b tr)) = _getClicks b.
Proof.
  intros Hwf Hs Hc Hcm Hin.
  destruct (silent_run b tr Hwf) as [Hev Hv].
  { apply count_stutter; try assumption.
    apply inactive_waits; assumption. }
  split; [exact Hev|].
  apply (f_equal v_state) in Hv as H1. apply (f_equal v_clicks) in Hv as H2.
  cbn [fsm_view_of v_state v_clicks] in H1, H2. split; congruence.
Qed.

(** One click with the window set to 65535 ms, then a hundred ticks
    997 ms apart with the button released. *)
Lemma click_window_beyond_clock_witness :
  let b := fst (run_ticks (setClickMs default_button 65535)
                  (every_ms true 0 100 ++ every_ms false 100 100)) in
  let tr := map (fun n => at_ms (200 + 997 * Z.of_nat n) false) (seq 0 100) in
  _getClicks b = 1 /\ snd (run_ticks b tr) = [] /\
  _getState (fst (run_ticks b tr)) = OCS_COUNT.
Proof.
  cbv zeta. split; [vm_compute; reflexivity|].
  refine ((fun H => conj (proj1 H) (proj1 (proj2 H)))
            (click_window_beyond_clock _ _ _ _ _ _ _)).
  - apply run_ticks_wf. unfold wf. cbn. lia.
  - vm_compute. reflexivity.
  - vm_compute. reflexivity.
  - vm_compute. reflexivity.
  - vm_compute. reflexivity.
Defined.

(** X8.  A long-press threshold of 65532 ms or more is never passed: while
    the button is seen pressed, a machine in the pressed state calls no
    callback and stays there; no long press is ever reported. *)
Theorem long_press_beyond_clock (b : OneButtonTiny) (tr : list sample) :
  wf b -> _getState b = OCS_DOWN -> 65532 <= _press_ms b ->
  active (stable_trace b tr) = true ->
  snd (run_ticks b tr) = [] /\
  _getState (fst (run_ticks b tr)) = OCS_DOWN.
Proof.
  intros Hwf Hs Hpm Hact.
  destruct (silent_run b tr Hwf) as [Hev Hv].
  { apply down_stutter; try assumption.
    apply active_holds; assumption. }
  split; [exact Hev|].
  apply (f_equal v_state) in Hv. cbn [fsm_view_of v_state] in Hv. congruence.
Qed.

(** The threshold at 65532 ms and the button held through a hundred
    ticks 997 ms apart. *)
Lemma long_press_beyond_clock_witness :
  let b := fst (run_ticks (setPressMs default_button 65532) (every_ms true 0 100)) in
  let tr := map (fun n => at_ms (100 + 997 * Z.of_nat n) true) (seq 0 100) in
  snd (run_ticks b tr) = [] /\ _getState (fst (run_ticks b tr)) = OCS_DOWN.
Proof.
  cbv zeta. apply long_press_beyond_clock.
  - apply run_ticks_wf. unfold wf. cbn. lia.
  - vm_compute. reflexivity.
  - vm_compute. discriminate.
  - vm_compute. reflexivity.
Defined.

(** ** Two more gestures *)

(** X1.  A double click is reported without waiting for the click window:
    from idle, two press-release cycles, neither held beyond
    [pressThreshold], the second press seen before the window of the first
    release has run out, and then a tick that sees the button released.
    With a double-click handler attached, that handler is called once, at
    that very tick whatever the clock shows, the click handler is not
    called, and the machine is idle again. *)
Theorem double_click (b : OneButtonTiny) (tr : list sample) (g : nat)
  (idle hold1 wait1 hold2 post : list (bool * Z))
  (p1 r1 p2 r2 d : Z) (u1 u2 : bool * Z) :
  wf b -> _getState b = OCS_INIT -> _doubleClickFunc b = Some g ->
  stable_trace b tr =
    idle ++ cycle p1 hold1 r1 u1 ++ wait1 ++ cycle p2 hold2 r2 u2 ++
    (false, d) :: post ->
  inactive idle = true ->
  held_below (_press_ms b) (_now p1) hold1 = true ->
  waiting_below (_click_ms b) (_now r1) wait1 = true ->
  held_below (_press_ms b) (_now p2) hold2 = true ->
  inactive post = true ->
  tick_log b tr =
    silent (idle ++ cycle p1 hold1 r1 u1 ++ wait1 ++ cycle p2 hold2 r2 u2) ++
    [EvDoubleClick g] :: silent post /\
  snd (run_ticks b tr) = [EvDoubleClick g] /\
  _getState (fst (run_ticks b tr)) = OCS_INIT.
Proof.
  intros Hwf Hst Hg Hshape Hidle Hh1 Hw1 Hh2 Hpost.
  assert (H22 : 2 <= 2) by lia.
  assert (Hrun :
             run_unpacked (fsm_view_of b)
               (idle ++ cycle p1 hold1 r1 u1 ++ wait1 ++
                cycle p2 hold2 r2 u2 ++ (false, d) :: post) =
             (mkView OCS_INIT 0 0 (_click_ms b) (_press_ms b) (_clickFunc b)
                (Some g) (_longPressStartFunc b),
              silent (idle ++ cycle p1 hold1 r1 u1 ++ wait1 ++
                      cycle p2 hold2 r2 u2) ++
              [EvDoubleClick g] :: silent post)).
  { unfold fsm_view_of. rewrite Hst, Hg.
    rewrite run_idle by exact Hidle.
    rewrite run_cycle_from_idle by exact Hh1.
    rewrite run_waiting by (try exact Hw1; lia).
    rewrite run_cycle_from_count by exact Hh2.
    change ((1 + 1) mod 4) with 2.
    rewrite (run_step _ _ _ _ _ _
               (tr_timeout _ _ _ _ _ 2 (_now r2) d (or_intror H22))).
    rewrite <- (app_nil_r post), run_idle by exact Hpost.
    rewrite run_unpacked_nil, !prepend_prepend, prepend_pair, !app_nil_r.
    rewrite !silent_app, <- !app_assoc. reflexivity. }
  destruct (lift_log b tr _ _ _ Hwf Hshape Hrun) as (Hlog & Hev & Hv).
  rewrite concat_one_event in Hev. apply (f_equal v_state) in Hv. auto.
Qed.

(** The defaults, a tick every millisecond, two presses of 100 ms, 100 ms
    apart: the handler is called at 450 ms, 50 ms after the button was let
    go for the second time. *)
Lemma double_click_witness :
  snd (run_ticks default_button
         (every_ms false 0 100 ++
          every_ms true 100 100 ++ every_ms false 200 100 ++
          every_ms true 300 100 ++ every_ms false 400 200)) =
  [EvDoubleClick 2].
Proof.
  pose (st := fun (l : bool) (from : Z) (n : nat) =>
                map (fun s => (l, s_millis_fsm s)) (every_ms l from n)).
  refine (proj1 (proj2 (double_click default_button
            (every_ms false 0 100 ++
             every_ms true 100 100 ++ every_ms false 200 100 ++
             every_ms true 300 100 ++ every_ms false 400 200) 2
            (st false 0 148%nat) (st true 149 99%nat) (st false 250 98%nat)
            (st true 349 99%nat) (st false 451 149%nat)
            148 248 348 448 450 (false, 249) (false, 449)
            _ _ _ _ _ _ _ _ _))).
  - unfold wf. cbn. lia.
  - reflexivity.
  - reflexivity.
  - vm_compute. reflexivity.
  - vm_compute. reflexivity.
  - vm_compute. reflexivity.
  - vm_compute. reflexivity.
  - vm_compute. reflexivity.
  - vm_compute. reflexivity.
Defined.

(** X13.  A click followed by a long press loses the click: from idle, one
    press-release cycle, then, before its click window has run out, a
    second press that is held until the measured time passes
    [pressThreshold].  Only the long-press handler is called, once; the
    click that was counted is never reported, not even after the release. *)
Theorem click_then_long_press (b : OneButtonTiny) (tr : list sample) (h : nat)
  (idle hold1 wait1 hold2 held post : list (bool * Z))
  (p1 r1 p2 k r : Z) (u1 : bool * Z) :
  wf b -> _getState b = OCS_INIT -> _longPressStartFunc b = Some h ->
  stable_trace b tr =
    idle ++ cycle p1 hold1 r1 u1 ++ wait1 ++
    (true, p2) :: hold2 ++ (true, k) :: held ++ (false, r) :: post ->
  inactive idle = true ->
  held_below (_press_ms b) (_now p1) hold1 = true ->
  waiting_below (_click_ms b) (_now r1) wait1 = true ->
  held_below (_press_ms b) (_now p2) hold2 = true ->
  _press_ms b < _elapsed (_now k) (_now p2) ->
  active held = true ->
  inactive post = true ->
  tick_log b tr =
    silent (idle ++ cycle p1 hold1 r1 u1 ++ wait1 ++ (true, p2) :: hold2) ++
    [EvLongPressStart h] :: silent (held ++ (false, r) :: post) /\
  snd (run_ticks b tr) = [EvLongPressStart h] /\
  count_events is_click (snd (run_ticks b tr)) = 0%nat.
Proof.
  intros Hwf Hst Hh Hshape Hidle Hh1 Hw1 Hh2 Hk Hheld Hpost.
  assert (Hrun : exists v',
             run_unpacked (fsm_view_of b)
               (idle ++ cycle p1 hold1 r1 u1 ++ wait1 ++
                (true, p2) :: hold2 ++ (true, k) :: held ++ (false, r) :: post) =
             (v', silent (idle ++ cycle p1 hold1 r1 u1 ++ wait1 ++
                          (true, p2) :: hold2) ++
                  [EvLongPressStart h] :: silent (held ++ (false, r) :: post))).
  { unfold fsm_view_of. rewrite Hst, Hh. eexists.
    rewrite run_idle by exact Hidle.
    rewrite run_cycle_from_idle by exact Hh1.
    rewrite run_waiting by (try exact Hw1; lia).
    rewrite (run_step _ _ _ _ _ _ (tr_again _ _ _ _ _ 1 (_now r1) p2)).
    rewrite run_held by exact Hh2.
    rewrite (run_step _ _ _ _ _ _ (tr_long _ _ _ _ _ 1 (_now p2) k Hk)).
    rewrite run_long_held by exact Hheld.
    rewrite (run_step _ _ _ _ _ _ (tr_long_release _ _ _ _ _ 1 (_now p2) r)).
    rewrite run_after_long_press by exact Hpost.
    rewrite !prepend_prepend, prepend_pair.
    rewrite !silent_app. cbn [silent map app].
    repeat rewrite <- app_assoc. cbn [app]. reflexivity. }
  destruct Hrun as [v' Hrun].
  destruct (lift_log b tr _ _ _ Hwf Hshape Hrun) as (Hlog & Hev & _).
  rewrite concat_one_event in Hev. rewrite Hev. auto.
Qed.

(** The defaults, a tick every millisecond: a press of 100 ms, then, after
    100 ms, one of a second. *)
Lemma click_then_long_press_witness :
  snd (run_ticks default_button
         (every_ms false 0 100 ++
          every_ms true 100 100 ++ every_ms false 200 100 ++
          every_ms true 300 1000 ++ every_ms false 1300 600)) =
  [EvLongPressStart 3].
Proof.
  pose (st := fun (l : bool) (from : Z) (n : nat) =>
                map (fun s => (l, s_millis_fsm s)) (every_ms l from n)).
  refine (proj1 (proj2 (click_then_long_press default_button
            (every_ms false 0 100 ++
             every_ms true 100 100 ++ every_ms false 200 100 ++
             every_ms true 300 1000 ++ every_ms false 1300 600) 3
            (st false 0 148%nat) (st true 149 99%nat) (st false 250 98%nat)
            (st true 349 803%nat) (st true 1153 195%nat) (st false 1349 551%nat)
            148 248 348 1152 1348 (false, 249)
            _ _ _ _ _ _ _ _ _ _ _))).
  - unfold wf. cbn. lia.
  - reflexivity.
  - reflexivity.
  - vm_compute. reflexivity.
  - vm_compute. reflexivity.
  - vm_compute. reflexivity.
  - vm_compute. reflexivity.
  - vm_compute. reflexivity.
  - vm_compute. reflexivity.
  - vm_compute. reflexivity.
  - vm_compute. reflexivity.
Defined.

(** ** The filter over a trace, once more *)


Lemma quarter_of_byte d : 0 <= d < 256 -> uint8 (Z.shiftr d 2) = d / 4.
Proof.
  intros Hd. rewrite Z.shiftr_div_pow2 by lia. change (2 ^ 2) with 4.
  unfold uint8. apply Z.mod_small.
  pose proof (Z.div_pos d 4 ltac:(lia) ltac:(lia)).
  assert (d / 4 < 64) by (apply Z.div_lt_upper_bound; lia). lia.
Qed.

(** The filter after one more tick, by the fields it works on. *)
Lemma tick_filter_view b0 pre s :
  wf b0 ->
  let b := fst (run_ticks b0 (map sample_at pre)) in
  let b' := fst (tick_sample b (sample_at s)) in
  debounce_view_of b' =
  debounce_unpacked (debounce_view_of b) (t_level s) (uint32 (t_debounce s)).
Proof.
  intros Hwf b b'.
  apply (tick_level_debounce_view b (t_level s) (uint32 (t_debounce s))
           (uint32 (t_fsm s))).
  now apply run_ticks_wf.
Qed.



(** What it takes for a tick to change the stable level. *)
Lemma stable_change_needs_run b0 pre s :
  wf b0 -> 0 <= _debounce_ms b0 < 256 ->
  _getLastLevel b0 = _getDebouncedLevel b0 ->
  not_before pre s ->
  let b := fst (run_ticks b0 (map sample_at pre)) in
  let b' := fst (tick_sample b (sample_at s)) in
  _getDebouncedLevel b' = _getDebouncedLevel b \/
  (_getDebouncedLevel b' = t_level s /\
   held_for (4 * (_debounce_ms b0 / 4) - 3) pre s = true).
Proof.
  intros Hwf Hms H0 Hmono b b'.
  destruct (filter_inv_run b0 pre Hwf H0) as [[Hlast Hrun] Hd].
  fold b in Hlast, Hrun, Hd.
  pose proof (tick_filter_view b0 pre s Hwf) as Hv. cbv zeta in Hv.
  fold b in Hv. fold b' in Hv.
  apply (f_equal d_stable) in Hv.
  change (d_stable (debounce_view_of b')) with (_getDebouncedLevel b') in Hv.
  rewrite Hv. clear Hv.
  cbn [debounce_view_of d_last d_stable d_changedAt] in Hrun.
  unfold debounce_unpacked.
  cbn [debounce_view_of d_last d_stable d_changedAt d_debounce_ms].
  destruct (Bool.eqb (_getLastLevel b) (t_level s)) eqn:E; [|now left].
  apply Bool.eqb_prop in E.
  destruct (Z.geb_spec (uint16 (_now (uint32 (t_debounce s)) - _lastDebounceTime b))
                       (uint8 (Z.shiftr (_debounce_ms b) 2))) as [Hge|Hlt];
    [|now left].
  cbn [d_stable].
  destruct Hrun as [Hst | (t0 & Ht0 & Hat)]; [left; congruence|].
  right. split; [reflexivity|].
  rewrite Hd, quarter_of_byte, Hat, debounce_diff_true_time in Hge by assumption.
  destruct (run_start_in _ _ _ Ht0) as (x & Hx & Hxt).
  assert (Hle : t0 <= t_debounce s).
  { unfold not_before in Hmono. rewrite Forall_forall in Hmono.
    rewrite <- Hxt. apply Hmono. now apply in_rev. }
  pose proof (quarter_mono _ _ Hle) as Hm.
  assert (Hu : uint16 (t_debounce s / 4 - t0 / 4) <= t_debounce s / 4 - t0 / 4)
    by (unfold uint16; apply Z.mod_le; lia).
  pose proof (quarter_diff_bounds t0 (t_debounce s)) as Hb.
  unfold held_for, level_since. rewrite <- E, Ht0. apply Z.leb_le. lia.
Qed.

Lemma glitch_run b0 :
  wf b0 -> 0 <= _debounce_ms b0 < 256 ->
  _getLastLevel b0 = _getDebouncedLevel b0 ->
  forall rest pre,
    pulses_shorter (4 * (_debounce_ms b0 / 4) - 3) pre rest = true ->
    let b := fst (run_ticks b0 (map sample_at pre)) in
    _getDebouncedLevel b = false -> _getState b = OCS_INIT ->
    snd (run_ticks b (map sample_at rest)) = [] /\
    _getState (fst (run_ticks b (map sample_at rest))) = OCS_INIT /\
    _getDebouncedLevel (fst (run_ticks b (map sample_at rest))) = false.
Proof.
  intros Hwf Hms H0. induction rest as [|s rest IH]; intros pre Hp b Hst Hidle.
  - cbn. auto.
  - cbn [pulses_shorter] in Hp.
    apply andb_prop in Hp as [Hp Hrest]. apply andb_prop in Hp as [Hnb Hshort].
    assert (Hmono : not_before pre s).
    { unfold not_before. apply Forall_forall. intros x Hx.
      rewrite forallb_forall in Hnb. apply Z.leb_le. now apply Hnb. }
    pose proof (run_ticks_wf b0 (map sample_at pre) Hwf) as Hwfb. fold b in Hwfb.
    assert (Hst' : _getDebouncedLevel (fst (tick_sample b (sample_at s))) = false).
    { destruct (stable_change_needs_run b0 pre s Hwf Hms H0 Hmono)
        as [Hsame | [Hnew Hheld]]; fold b in Hsame || fold b in Hnew.
      - congruence.
      - rewrite Hnew. rewrite Hheld in Hshort. cbn in Hshort.
        rewrite orb_false_r in Hshort. now destruct (t_level s). }
    assert (Htick : snd (tick_sample b (sample_at s)) = [] /\
                    _getState (fst (tick_sample b (sample_at s))) = OCS_INIT).
    { unfold tick_sample in *. rewrite tick_level_eq in *.
      set (b1 := fst (_debounce b (s_level (sample_at s))
                        (s_millis_debounce (sample_at s)))) in *.
      assert (Hwf1 : wf b1) by now apply debounce_wf.
      assert (Hs1 : _getState b1 = OCS_INIT).
      { pose proof (debounce_fsm_view b (s_level (sample_at s))
                      (s_millis_debounce (sample_at s)) Hwfb) as Hv.
        apply (f_equal v_state) in Hv. fold b1 in Hv.
        cbn [fsm_view_of v_state] in Hv. congruence. }
      assert (Hl1 : snd (_debounce b (s_level (sample_at s))
                           (s_millis_debounce (sample_at s))) = false).
      { rewrite debounce_returns. fold b1.
        pose proof (fsm_debounce_view b1
                      (snd (_debounce b (s_level (sample_at s))
                              (s_millis_debounce (sample_at s))))
                      (s_millis_fsm (sample_at s)) Hwf1) as Hv.
        apply (f_equal d_stable) in Hv.
        cbn [debounce_view_of d_stable] in Hv. congruence. }
      rewrite Hl1 in *. split; [now apply idle_is_silent|].
      destruct (fsm_unpacked_ok b1 false (s_millis_fsm (sample_at s)) Hwf1)
        as [Hv _].
      apply (f_equal v_state) in Hv. unfold fsm_view_of at 2 in Hv.
      unfold fsm_unpacked in Hv. cbn [v_state fsm_view_of fst] in Hv.
      rewrite Hs1 in Hv. cbn [Z.eqb OCS_INIT fst v_state] in Hv. congruence. }
    destruct Htick as [Hev Hidle'].
    specialize (IH (pre ++ [s]) Hrest). cbv zeta in IH.
    rewrite map_app in IH. cbn [map] in IH.
    rewrite run_ticks_snoc in IH. fold b in IH.
    specialize (IH Hst' Hidle').
    cbn [map run_ticks].
    destruct (tick_sample b (sample_at s)) as [b1 e1]. cbn [fst snd] in *.
    destruct (run_ticks b1 (map sample_at rest)) as [b2 e2]. cbn [fst snd] in *.
    destruct IH as (IH1 & IH2 & IH3). subst e1 e2. auto.
Qed.

(** X10.  Pulses the filter removes call nothing: ticks on a clock that does
    not run backwards, on an idle button with a settled filter that shows
    "released".  If at no tick the button has been seen pressed at every
    tick for [4 * (debounceTime / 4) - 3] ms or more, the stable level never
    becomes "pressed", no callback is called and the machine is still
    idle at the end. *)
Theorem glitch_ignored (b0 : OneButtonTiny) (tr : list timed) :
  wf b0 -> 0 <= _debounce_ms b0 < 256 ->
  _getState b0 = OCS_INIT ->
  _getLastLevel b0 = false -> _getDebouncedLevel b0 = false ->
  pulses_shorter (4 * (_debounce_ms b0 / 4) - 3) [] tr = true ->
  snd (run_ticks b0 (map sample_at tr)) = [] /\
  _getState (fst (run_ticks b0 (map sample_at tr))) = OCS_INIT /\
  _getDebouncedLevel (fst (run_ticks b0 (map sample_at tr))) = false.
Proof.
  intros Hwf Hms Hidle Hlast Hst Hp.
  apply (glitch_run b0 Hwf Hms (eq_trans Hlast (eq_sym Hst)) tr [] Hp Hst Hidle).
Qed.

(** The defaults, a tick every millisecond, two pulses of 40 and 44 ms. *)
Lemma glitch_ignored_witness :
  let span := fun (l : bool) (from : Z) (n : nat) =>
                map (fun k => mkTimed l (from + Z.of_nat k) (from + Z.of_nat k))
                    (seq 0 n) in
  let tr := span false 0 50%nat ++ span true 50 40%nat ++
            span false 90 100%nat ++ span true 190 44%nat ++
            span false 234 50%nat in
  snd (run_ticks default_button (map sample_at tr)) = [].
Proof.
  cbv zeta. apply glitch_ignored.
  - unfold wf. cbn. lia.
  - cbn. lia.
  - reflexivity.
  - reflexivity.
  - reflexivity.
  - vm_compute. reflexivity.
Defined.

(** ** The state machine of an idle button *)

Lemma fsm_unpacked_idle_fresh v level m :
  (v_state v = OCS_INIT -> v_clicks v = 0 /\ v_start v = 0) ->
  v_state (fst (fsm_unpacked v level m)) = OCS_INIT ->
  v_clicks (fst (fsm_unpacked v level m)) = 0 /\
  v_start (fst (fsm_unpacked v level m)) = 0.
Proof.
  intros Hinv. unfold fsm_unpacked.
  repeat match goal with
    | |- context [if ?c =? ?k then _ else _] =>
        destruct (Z.eqb_spec c k)
    | |- context [if ?c then _ else _] => destruct c
    end; cbn [fst v_goto v_state v_clicks v_start]; intros H;
    try discriminate H; auto; congruence.
Qed.

Lemma tick_level_idle_fresh b level m1 m2 :
  wf b ->
  (_getState b = OCS_INIT -> _getClicks b = 0 /\ _startTime b = 0) ->
  _getState (fst (tick_level b level m1 m2)) = OCS_INIT ->
  _getClicks (fst (tick_level b level m1 m2)) = 0 /\
  _startTime (fst (tick_level b level m1 m2)) = 0.
Proof.
  intros Hwf Hinv. rewrite tick_level_eq.
  pose proof (debounce_wf b level m1 Hwf) as Hwf1.
  pose proof (debounce_fsm_view b level m1 Hwf) as Hv1.
  destruct (fsm_unpacked_ok (fst (_debounce b level m1))
              (snd (_debounce b level m1)) m2 Hwf1) as [Hv _].
  rewrite Hv1 in Hv. intros Hs.
  apply (f_equal v_state) in Hv as Hs'. apply (f_equal v_clicks) in Hv as Hc'.
  apply (f_equal v_start) in Hv as Ht'.
  cbn [fsm_view_of v_state v_clicks v_start] in Hs', Hc', Ht'.
  destruct (fsm_unpacked_idle_fresh (fsm_view_of b)
              (snd (_debounce b level m1)) m2 Hinv) as [H1 H2];
    [congruence|]. cbn [fsm_view_of] in H1, H2. split; congruence.
Qed.

Lemma reachable_idle_fresh b : reachable b ->
  wf b /\ (_getState b = OCS_INIT -> _getClicks b = 0 /\ _startTime b = 0).
Proof.
  induction 1 as [pin al pu | b ms _ IH | b ms _ IH | b ms _ IH | b f _ IH
                 | b f _ IH | b f _ IH | b _ IH | b raw m1 m2 _ IH
                 | b lvl m1 m2 _ IH]; try exact IH.
  - split; [apply wf_new|]. intros _. now destruct al.
  - destruct IH as [Hwf _]. split; [apply wf_reset|]. intros _.
    pose proof (reset_view b Hwf) as Hv.
    apply (f_equal v_clicks) in Hv. cbn [fsm_view_of v_clicks v_goto] in Hv.
    split; [exact Hv | reflexivity].
  - destruct IH as [Hwf Hinv]. unfold tick.
    split; [now apply tick_level_wf | now apply tick_level_idle_fresh].
  - destruct IH as [Hwf Hinv].
    split; [now apply tick_level_wf | now apply tick_level_idle_fresh].
Qed.

(** X14.  Whenever [isIdle()] holds on an object the public interface has
    produced, the three members the state machine works on are as the
    constructor set them: state [OCS_INIT], no clicks counted, start time 0.
    Nothing is said of the filter, whose members [reset()] and [_fsm] leave
    alone: see [idle_after_reset_in_a_hold]. *)
Theorem idle_is_fresh (b : OneButtonTiny) :
  reachable b -> isIdle b = true ->
  _getState b = OCS_INIT /\ _getClicks b = 0 /\ _startTime b = 0.
Proof.
  intros Hr Hidle.
  destruct (reachable_in_sync b Hr) as [_ Hsync].
  destruct (reachable_idle_fresh b Hr) as [_ Hinv].
  assert (Hs : _getState b = OCS_INIT)
    by (rewrite <- Hsync; now apply Z.eqb_eq).
  split; [exact Hs | now apply Hinv].
Qed.

(** No settle time; a press, its release, and the tick at which the click
    is reported: the button is idle and has forgotten the click. *)
Lemma idle_is_fresh_witness :
  let t := fun b (l : bool) (m : Z) => fst (tick_level b l m m) in
  let b0 := setDebounceMs (OneButtonTiny_new 2 true true) 0 in
  let b := t (t (t (t (t b0 true 0) true 4) false 100) false 104) false 108 in
  _getClicks b = 1 /\ _getClicks (t b false 600) = 0.
Proof.
  cbv zeta. split; [reflexivity|].
  refine (proj1 (proj2 (idle_is_fresh _ _ _))).
  - do 6 apply reach_tick_level. apply reach_setDebounceMs, reach_new.
  - reflexivity.
Defined.

(** The filter of an idle button need not be that of a new one: [reset()]
    while the button is held leaves the stable level at "pressed", so the
    rest of the hold counts as a press of its own, and one more press
    makes a double click where a new button reports a click. *)
Lemma idle_after_reset_in_a_hold :
  let b := reset (fst (run_ticks default_button (every_ms true 0 100))) in
  let tr := every_ms true 100 50 ++ every_ms false 150 100 ++
            every_ms true 250 100 ++ every_ms false 350 600 in
  isIdle b = true /\ _getDebouncedLevel b = true /\
  snd (run_ticks b tr) = [EvDoubleClick 2] /\
  snd (run_ticks default_button
         (every_ms false 150 100 ++ every_ms true 250 100 ++
          every_ms false 350 600)) = [EvClick 1].
Proof. vm_compute. repeat split; reflexivity. Qed.
